(** * Portfolio optimisation core: shallow embedding and verification

    The numeric core of [src/utils.py] and of the [PortfolioOptimizer] class
    of [src/portfolio_optimizer.py], embedded over IEEE-754 binary64 numbers
    (Rocq's primitive [float], the same format as Python's [float] and
    numpy's [float64]).  Python exceptions are an explicit [result] type;
    the numpy global random state is threaded explicitly. *)

From Stdlib Require Import ZArith List Floats Bool Lia.
From Stdlib Require String Ascii.
Import ListNotations String.StringSyntax.

Set Warnings "-inexact-float".

(* ================================================================= *)
(** * Exceptions *)

Inductive exn : Set :=
| ValueError     (* numpy shape mismatch, reduction of an empty array *)
| IndexError     (* index out of bounds *)
| OverflowError. (* int too large to convert to float *)

Inductive result (A : Type) : Type :=
| Ok (a : A)
| Raise (e : exn).

Arguments Ok {A} a.
Arguments Raise {A} e.

Definition bind {A B : Type} (m : result A) (k : A -> result B) : result B :=
  match m with
  | Ok a => k a
  | Raise e => Raise e
  end.

Notation "x <- m ;; k" := (bind m (fun x => k))
  (at level 61, m at next level, right associativity).
Notation "' pat <- m ;; k" := (bind m (fun x => match x with pat => k end))
  (at level 61, pat pattern, m at next level, right associativity).

(* ================================================================= *)
(** * binary64 helpers *)

Module Float64.

(** The binary64 number nearest to an integer (round to nearest even),
    infinite when that is beyond the largest finite one. *)
Definition of_Z (z : Z) : float := SF2Prim (binary_normalize prec emax z 0 false).

(** The element count by which numpy divides a sum: a machine integer cast
    to [double], always finite. *)
Definition of_nat (n : nat) : float := of_Z (Z.of_nat n).

(** Conversion of a Python [int] to [float]: the nearest binary64 number,
    and [OverflowError] when that is beyond the largest finite one (the
    integers from [2^1024 - 2^970] on, and their opposites). *)
Definition of_int (z : Z) : result float :=
  let f := of_Z z in
  if is_infinity f then Raise OverflowError else Ok f.

(** [x * z] for a float [x] and a Python [int] [z]: the [int] is converted
    first. *)
Definition mul_int (x : float) (z : Z) : result float :=
  d <- of_int z ;;
  Ok (x * d)%float.

(** [|a - b| < tol], the comparison used by the test-suite. *)
Definition close (tol a b : float) : bool := (abs (a - b) <? tol)%float.

End Float64.

(* ================================================================= *)
(** * The numpy primitives the core calls

    One-dimensional arrays are lists; a two-dimensional array carries its
    shape, so that arrays with a zero dimension keep the other one. *)

Record ndarray2 : Set := mk_ndarray2 {
  nrows : nat;
  ncols : nat;
  rows : list (list float)
}.

(** The shape invariant every numpy array satisfies. *)
Definition well_shaped (A : ndarray2) : Prop :=
  length (rows A) = nrows A /\ Forall (fun r => length r = ncols A) (rows A).

Module np.

Local Open Scope float_scope.

(** [np.array(nested)] for a non-empty rectangular nested list. *)
Definition array2 (nested : list (list float)) : ndarray2 :=
  mk_ndarray2 (length nested) (length (hd [] nested)) nested.

(** [A[i, j]] *)
Definition item2 (A : ndarray2) (i j : nat) : float := nth j (nth i (rows A) []) 0.

(** [A.T] *)
Definition transpose (A : ndarray2) : ndarray2 :=
  mk_ndarray2 (ncols A) (nrows A)
    (map (fun j => map (fun i => item2 A i j) (seq 0 (nrows A))) (seq 0 (ncols A))).

(** [np.ones(n)] *)
Definition ones (n : nat) : list float := repeat 1 n.

(** [np.diff(a)]: [out[i] = a[i+1] - a[i]]. *)
Fixpoint diff (a : list float) : list float :=
  match a with
  | x :: (y :: _) as t => (y - x) :: diff t
  | _ => []
  end.

Fixpoint zip_with (f : float -> float -> float) (a b : list float) : list float :=
  match a, b with
  | x :: a', y :: b' => f x y :: zip_with f a' b'
  | _, _ => []
  end.

(** [a / b] on one-dimensional arrays: element-wise on equal shapes, a
    length-one operand is broadcast, any other pair of shapes raises.
    Division by zero yields an infinity or NaN (numpy only warns). *)
Definition divide (a b : list float) : result (list float) :=
  if (length a =? length b)%nat then Ok (zip_with div a b)
  else match a, b with
       | [x], _ => Ok (map (fun y => x / y) b)
       | _, [y] => Ok (map (fun x => x / y) a)
       | _, _ => Raise ValueError
       end.

(** [np.sum(a)], accumulated left to right from zero.  (numpy switches to
    pairwise accumulation from eight elements on, which only changes the
    rounding of the last bits.) *)
Definition sum (a : list float) : float := fold_left add a 0.

(** [np.average(a)] without weights: [a.mean()]; NaN on an empty array. *)
Definition average (a : list float) : float := sum a / Float64.of_nat (length a).

(** [np.std(a)] with the default [ddof=0]. *)
Definition std (a : list float) : float :=
  let rcount := Float64.of_nat (length a) in
  let arrmean := sum a / rcount in
  let x := map (fun v => v - arrmean) a in
  let x := map (fun v => v * v) x in
  sqrt (sum x / rcount).

(** Inner product of two vectors, accumulated left to right. *)
Definition dot (u v : list float) : float := sum (zip_with mul u v).

(** [np.matmul(w, B)] for a vector [w] and a matrix [B]: the length of [w]
    must be the number of rows of [B]. *)
Definition matmul (w : list float) (B : ndarray2) : result (list float) :=
  if (length w =? nrows B)%nat
  then Ok (map (fun j => dot w (map (fun i => item2 B i j) (seq 0 (nrows B))))
               (seq 0 (ncols B)))
  else Raise ValueError.

(** [np.where(cond)[0]]: the positions at which [cond] holds, ascending. *)
Fixpoint where_from (i : nat) (cond : list bool) : list nat :=
  match cond with
  | [] => []
  | b :: cond' => if b then i :: where_from (S i) cond' else where_from (S i) cond'
  end.

Definition where_0 (cond : list bool) : list nat := where_from 0 cond.

(** [a[i]] for an integer [i]. *)
Definition item {A : Type} (a : list A) (i : nat) : result A :=
  match nth_error a i with
  | Some x => Ok x
  | None => Raise IndexError
  end.

(** [a[idx]] for an index array [idx]. *)
Fixpoint take {A : Type} (a : list A) (idx : list nat) : result (list A) :=
  match idx with
  | [] => Ok []
  | i :: idx' => x <- item a i ;; xs <- take a idx' ;; Ok (x :: xs)
  end.

(** The scan of [np.argmax]: [mp] is the running maximum found at
    [max_ind], [i] the position of the head of [ip].  A later element
    replaces the maximum only when it is not [<=] it, so the first
    occurrence wins; a NaN maximum ends the scan. *)
Fixpoint argmax_scan (mp : float) (max_ind i : nat) (ip : list float) : nat :=
  match ip with
  | [] => max_ind
  | x :: ip' =>
      if is_nan mp then max_ind
      else if negb (x <=? mp) then argmax_scan x i (S i) ip'
      else argmax_scan mp max_ind (S i) ip'
  end.

(** [np.argmax(a)]; an empty array raises. *)
Definition argmax (a : list float) : result nat :=
  match a with
  | [] => Raise ValueError
  | x :: a' => Ok (argmax_scan x 0 1 a')
  end.

(** One step of the [np.minimum] reduction: NaN propagates. *)
Definition minimum (acc x : float) : float :=
  if (acc <=? x) || is_nan acc then acc else x.

(** [np.min(a)]; an empty array raises. *)
Definition amin (a : list float) : result float :=
  match a with
  | [] => Raise ValueError
  | x :: a' => Ok (fold_left minimum a' x)
  end.

(** [np.column_stack((a, b))] of two one-dimensional arrays: the rows
    [[a[i], b[i]]]; different lengths raise. *)
Definition column_stack (a b : list float) : result (list (float * float)) :=
  if (length a =? length b)%nat then Ok (combine a b) else Raise ValueError.

End np.

(* ================================================================= *)
(** * [src/utils.py] *)

Local Open Scope float_scope.

(** The local [returns] of [calculate_returns_and_risk]:
    [np.diff(prices) / prices[1:]]. *)
Definition daily_returns (prices : list float) : result (list float) :=
  np.divide (np.diff prices) (tl prices).

Definition calculate_returns_and_risk (prices : list float) : result (float * float) :=
  returns <- daily_returns prices ;;
  let avg_return := np.average returns in
  let risk := np.std returns in
  Ok (avg_return, risk).

Definition calculate_portfolio_metrics (weights : list float) (asset_prices : ndarray2)
  : result (float * float) :=
  portfolio_prices <- np.matmul weights (np.transpose asset_prices) ;;
  portfolio_returns <- np.divide (np.diff portfolio_prices) (tl portfolio_prices) ;;
  let portfolio_return := np.average portfolio_returns in
  let portfolio_risk := np.std portfolio_returns in
  Ok (portfolio_return, portfolio_risk).

Definition annualize_metrics (return_rate risk : float) (trade_days : Z)
  : result (float * float) :=
  annualized_return <- Float64.mul_int return_rate trade_days ;;
  annualized_risk <- Float64.mul_int risk trade_days ;;
  Ok (annualized_return, annualized_risk).

(** A row [[return, risk]] of [portfolio_array] is a pair; [[:, 0]] and
    [[:, 1]] are the two projections. *)
Definition column0 (a : list (float * float)) : list float := map fst a.
Definition column1 (a : list (float * float)) : list float := map snd a.

Definition find_optimal_portfolio
  (portfolio_array : list (float * float)) (max_risk min_risk : float)
  : result ((float * float) * nat) :=
  let acceptable_portfolios :=
    np.where_0 (map (fun r => r <=? max_risk) (column1 portfolio_array)) in
  if (1 <? length acceptable_portfolios)%nat then
    candidate_portfolios <- np.take portfolio_array acceptable_portfolios ;;
    best_idx <- np.argmax (column0 candidate_portfolios) ;;
    portfolio_idx <- np.item acceptable_portfolios best_idx ;;
    best_portfolio <- np.item candidate_portfolios best_idx ;;
    Ok (best_portfolio, portfolio_idx)
  else
    let min_risk_portfolios :=
      np.where_0 (map (fun r => r =? min_risk) (column1 portfolio_array)) in
    candidate_portfolios <- np.take portfolio_array min_risk_portfolios ;;
    best_idx <- np.argmax (column0 candidate_portfolios) ;;
    portfolio_idx <- np.item min_risk_portfolios best_idx ;;
    best_portfolio <- np.item candidate_portfolios best_idx ;;
    Ok (best_portfolio, portfolio_idx).

(* ================================================================= *)
(** * [src/config.py] and [src/portfolio_optimizer.py] *)

(** The fields of [PortfolioConfig] the core reads. *)
Record PortfolioConfig : Set := {
  portfolio_tickers : list String.string;
  number_of_scenarios : Z;
  delta_risk : float;
  trade_days_per_year : Z
}.

(** The dictionary [portfolio_scenarios]. *)
Record Scenarios : Set := {
  returns : list float;
  risks : list float;
  weights : list (list float)
}.

(** The attributes of a [PortfolioOptimizer] after [analyze_benchmark]:
    [portfolio_close] is [np.array(self.portfolio_data['Close'])], one row
    per trading day and one column per ticker. *)
Record PortfolioOptimizer : Set := {
  config : PortfolioConfig;
  portfolio_close : ndarray2;
  benchmark_return : float;
  benchmark_risk : float;
  portfolio_scenarios : Scenarios;
  optimal_portfolio : option (float * float);
  optimal_weights : option (list float);
  risk_boundaries : option (float * float)   (* (min_risk, max_risk) *)
}.

Definition set_portfolio_scenarios (self : PortfolioOptimizer) (s : Scenarios)
  : PortfolioOptimizer :=
  {| config := config self;
     portfolio_close := portfolio_close self;
     benchmark_return := benchmark_return self;
     benchmark_risk := benchmark_risk self;
     portfolio_scenarios := s;
     optimal_portfolio := optimal_portfolio self;
     optimal_weights := optimal_weights self;
     risk_boundaries := risk_boundaries self |}.

Definition set_optimum (self : PortfolioOptimizer)
  (best : float * float) (w : list float) (bounds : float * float) : PortfolioOptimizer :=
  {| config := config self;
     portfolio_close := portfolio_close self;
     benchmark_return := benchmark_return self;
     benchmark_risk := benchmark_risk self;
     portfolio_scenarios := portfolio_scenarios self;
     optimal_portfolio := Some best;
     optimal_weights := Some w;
     risk_boundaries := Some bounds |}.

(** [optimize_portfolio]: the slices [[1:]] drop the benchmark entry. *)
Definition optimize_portfolio (self : PortfolioOptimizer) : result PortfolioOptimizer :=
  let scenarios := portfolio_scenarios self in
  portfolio_array <- np.column_stack (tl (returns scenarios)) (tl (risks scenarios)) ;;
  min_risk <- np.amin (tl (risks scenarios)) ;;
  let max_risk := benchmark_risk self * (1 + delta_risk (config self)) in
  '(best_portfolio, portfolio_idx) <-
     find_optimal_portfolio portfolio_array max_risk min_risk ;;
  w <- np.item (weights scenarios) portfolio_idx ;;
  Ok (set_optimum self best_portfolio w (min_risk, max_risk)).

Section Simulation.

(** The global state of [np.random] and its Dirichlet sampler, which
    returns the sample together with the advanced state. *)
Variable RandomState : Type.
Variable dirichlet : list float -> RandomState -> list float * RandomState.

(** [np.random.dirichlet(np.ones(n_assets), size=1)[0]] *)
Definition generate_random_portfolio_weights (n_assets : nat) (g : RandomState)
  : list float * RandomState :=
  dirichlet (np.ones n_assets) g.

(** The loop variables of [simulate_portfolios]. *)
Record loop_state : Type := {
  return_vector : list float;
  risk_vector : list float;
  weight_vector : list (list float);
  random_state : RandomState
}.

(** One iteration of the [for] loop (the progress log left out). *)
Definition simulate_step (self : PortfolioOptimizer) (st : loop_state) : result loop_state :=
  let '(weights, g) :=
    generate_random_portfolio_weights (length (portfolio_tickers (config self)))
                                      (random_state st) in
  let weight_vector := weight_vector st ++ [weights] in
  '(portfolio_return, portfolio_risk) <-
     calculate_portfolio_metrics weights (portfolio_close self) ;;
  Ok {| return_vector := return_vector st ++ [portfolio_return];
        risk_vector := risk_vector st ++ [portfolio_risk];
        weight_vector := weight_vector;
        random_state := g |}.

(** [n] iterations; the first exception aborts the run. *)
Fixpoint simulate_loop (self : PortfolioOptimizer) (n : nat) (st : loop_state)
  : result loop_state :=
  match n with
  | O => Ok st
  | S n' => st' <- simulate_step self st ;; simulate_loop self n' st'
  end.

Definition simulate_portfolios (self : PortfolioOptimizer) (g : RandomState)
  : result (PortfolioOptimizer * RandomState) :=
  let st0 := {| return_vector := [benchmark_return self];
                risk_vector := [benchmark_risk self];
                weight_vector := [];
                random_state := g |} in
  st <- simulate_loop self (Z.to_nat (number_of_scenarios (config self))) st0 ;;
  Ok (set_portfolio_scenarios self
        {| returns := return_vector st;
           risks := risk_vector st;
           weights := weight_vector st |},
      random_state st).

(** The random state after [i] draws of [n_assets] weights. *)
Fixpoint state_after (n_assets : nat) (i : nat) (g : RandomState) : RandomState :=
  match i with
  | O => g
  | S i' => state_after n_assets i' (snd (generate_random_portfolio_weights n_assets g))
  end.

End Simulation.

(* ================================================================= *)
(** * Specification-side definitions

    What the specification says in its own words, to be compared with the
    functions above. *)

(** §4.1: [r[i] = (p[i+1] - p[i]) / p[i+1]] for [i = 0..L-2]. *)
Definition later_price_returns (p : list float) : list float :=
  map (fun i => (nth (S i) p 0 - nth i p 0) / nth (S i) p 0) (seq 0 (length p - 1)).

(** Arithmetic mean with an explicit divisor (sums accumulate as [np.sum]). *)
Definition mean_over (divisor : nat) (r : list float) : float :=
  np.sum r / Float64.of_nat divisor.

(** Standard deviation about the mean with an explicit divisor. *)
Definition std_over (divisor : nat) (r : list float) : float :=
  let m := mean_over divisor r in
  sqrt (np.sum (map (fun x => (x - m) * (x - m)) r) / Float64.of_nat divisor).

(** §4.3, for a matrix with one row per asset ([n_assets x n_days], the
    layout of the docstring and of the test-suite): the price of day [d] is
    the sum over the assets [a] of [w[a] * price[a][d]]. *)
Definition synthetic_prices (w : list float) (asset_prices : ndarray2) : list float :=
  map (fun d => np.dot w (map (fun a => np.item2 asset_prices a d)
                              (seq 0 (nrows asset_prices))))
      (seq 0 (ncols asset_prices)).

(** The same for a matrix with one row per day ([n_days x n_assets], the
    layout [simulate_portfolios] passes). *)
Definition synthetic_prices_by_day (w : list float) (close_prices : ndarray2) : list float :=
  map (fun day => np.dot w day) (rows close_prices).

(** §4.5: the two candidate sets. *)
Definition acceptable (max_risk : float) (r : float * float) : bool := snd r <=? max_risk.
Definition at_min_risk (min_risk : float) (r : float * float) : bool := snd r =? min_risk.

(** [best] is stored at position [idx] of [records], belongs to the
    candidate set and no candidate has a larger return. *)
Definition max_return_among (cand : float * float -> bool)
  (records : list (float * float)) (best : float * float) (idx : nat) : Prop :=
  nth_error records idx = Some best /\
  cand best = true /\
  forall r, In r records -> cand r = true -> (fst r <=? fst best) = true.

(** §4.5, step 3: the outcome the two-tier policy prescribes. *)
Definition selection_policy (records : list (float * float)) (max_risk min_risk : float)
  (outcome : result ((float * float) * nat)) : Prop :=
  exists best idx,
    outcome = Ok (best, idx) /\
    if (1 <? length (filter (acceptable max_risk) records))%nat
    then max_return_among (acceptable max_risk) records best idx
    else max_return_among (at_min_risk min_risk) records best idx.

(** Element-wise closeness of two arrays. *)
Definition all_close (tol : float) (a b : list float) : bool :=
  (length a =? length b)%nat &&
  forallb (fun xy => Float64.close tol (fst xy) (snd xy)) (combine a b).

(** §8: the price series of the worked example, the per-step returns the
    specification lists for it, and the ones of the later-price
    convention. *)
Definition example_prices : list float := [100; 105; 102; 108; 110].
Definition listed_returns : list float := [0.05; - (3 / 102); 6 / 108; 2 / 110].
Definition later_price_example_returns : list float :=
  [5 / 105; - (3 / 102); 6 / 108; 2 / 110].

(** The per-step returns [test_calculate_returns_and_risk_basic] expects
    for the same prices: the first three are earlier-price quotients
    (5/100, -3/105, 6/102), rounded. *)
Definition test_expected_returns : list float := [0.05; -0.02857; 0.05882; 0.01852].

(** §8 as written: the returns computed are the listed ones and the
    estimator agrees with their mean and deviation, all to [1e-6]. *)
Definition example_as_listed : Prop :=
  exists rs out,
    daily_returns example_prices = Ok rs /\
    calculate_returns_and_risk example_prices = Ok out /\
    all_close 1e-6 rs listed_returns = true /\
    Float64.close 1e-6 (fst out) (np.average listed_returns) = true /\
    Float64.close 1e-6 (snd out) (np.std listed_returns) = true.

(** §8 on the annualizer, as written: a pair of products for all finite
    [r], [s] and every [d > 0]. *)
Definition linear_and_exact : Prop :=
  forall (r s : float) (d : Z),
    is_finite r = true -> is_finite s = true -> (0 < d)%Z ->
    annualize_metrics r s d = Ok (r * Float64.of_Z d, s * Float64.of_Z d).

(** The data of [test_calculate_portfolio_metrics]. *)
Definition test_weights : list float := [0.5; 0.5].
Definition test_asset_prices : ndarray2 :=
  np.array2 [[100; 105; 102; 108]; [200; 210; 204; 216]].

(** Two assets over two days, one row per asset, all weight on the
    first asset. *)
Definition square_weights : list float := [1; 0].
Definition square_asset_prices : ndarray2 := np.array2 [[100; 110]; [200; 180]].

(** The data of [test_find_optimal_portfolio_with_acceptable_risk]. *)
Definition test_portfolio_array : list (float * float) :=
  [(0.1, 0.05); (0.08, 0.03); (0.12, 0.08); (0.06, 0.04)].

(** A deterministic stand-in for the sampler: equal weights, the state
    counts the draws. *)
Definition equal_weights (alpha : list float) (g : nat) : list float * nat :=
  (map (fun a => a / Float64.of_nat (length alpha)) alpha, S g).

Local Open Scope string_scope.
Definition example_tickers : list String.string := ["AAPL"; "GOOG"].
Local Close Scope string_scope.

(** An optimizer over two tickers, four trading days (the prices of the
    test-suite, one row per day) and three scenarios. *)
Definition example_config : PortfolioConfig :=
  {| portfolio_tickers := example_tickers;
     number_of_scenarios := 3;
     delta_risk := 0.05;
     trade_days_per_year := 252 |}.

Definition example_optimizer : PortfolioOptimizer :=
  {| config := example_config;
     portfolio_close := np.array2 [[100; 200]; [105; 210]; [102; 204]; [108; 216]];
     benchmark_return := 0.001;
     benchmark_risk := 0.02;
     portfolio_scenarios := {| returns := []; risks := []; weights := [] |};
     optimal_portfolio := None;
     optimal_weights := None;
     risk_boundaries := None |}.

(** The candidate scan shared by the two branches of
    [find_optimal_portfolio], for the index array [idxs]. *)
Definition select_among (portfolio_array : list (float * float)) (idxs : list nat)
  : result ((float * float) * nat) :=
  candidate_portfolios <- np.take portfolio_array idxs ;;
  best_idx <- np.argmax (column0 candidate_portfolios) ;;
  portfolio_idx <- np.item idxs best_idx ;;
  best_portfolio <- np.item candidate_portfolios best_idx ;;
  Ok (best_portfolio, portfolio_idx).

(* ================================================================= *)
(** * Further code of the repository

    The rest of [src/config.py], [src/utils.py] and
    [src/portfolio_optimizer.py] that can be embedded: configuration
    validation, the ticker lists, calendar matching, benchmark analysis,
    result generation and the optimisation run without its download. *)

(** [PortfolioConfig.__post_init__]: the three checks, in order. *)
Definition post_init (c : PortfolioConfig) : result PortfolioConfig :=
  if (number_of_scenarios c <=? 0)%Z then Raise ValueError
  else if (delta_risk c <=? 0) || (1 <=? delta_risk c) then Raise ValueError
  else if (trade_days_per_year c <=? 0)%Z then Raise ValueError
  else Ok c.

(** [s.split(sep)] for a one-character separator: every occurrence of
    the separator ends a piece, so there is always at least one piece. *)
Fixpoint str_split (sep : Ascii.ascii) (s : String.string) : list String.string :=
  match s with
  | String.EmptyString => [String.EmptyString]
  | String.String c s' =>
      if Ascii.eqb c sep then String.EmptyString :: str_split sep s'
      else match str_split sep s' with
           | piece :: pieces => String.String c piece :: pieces
           | [] => [String.String c String.EmptyString]
           end
  end.

(** [sep.join(pieces)] *)
Fixpoint str_join (sep : Ascii.ascii) (pieces : list String.string) : String.string :=
  match pieces with
  | [] => String.EmptyString
  | [piece] => piece
  | piece :: rest => String.append piece (String.String sep (str_join sep rest))
  end.

(** [sep in s] *)
Fixpoint str_contains (sep : Ascii.ascii) (s : String.string) : bool :=
  match s with
  | String.EmptyString => false
  | String.String c s' => Ascii.eqb c sep || str_contains sep s'
  end.

Definition comma : Ascii.ascii := Ascii.Ascii false false true true false true false false.

(** The ticker lists of [create_custom_config] and of
    [load_config_from_env]: [value.split(',')]. *)
Definition tickers_of (value : String.string) : list String.string := str_split comma value.

(** The default of the [--benchmark] and [--portfolio] options:
    [','.join(tickers)]. *)
Definition tickers_option (tickers : list String.string) : String.string :=
  str_join comma tickers.

(** ** pandas frames

    A [DataFrame] is its rows in order, each with its index label (the
    trading day) and its cells; a missing value is NaN. *)
Module pd.

Definition DataFrame : Set := list (Z * list float).

(** [df.index] *)
Definition index (df : DataFrame) : list Z := map fst df.

(** [df.dropna(axis=0)]: the rows without a missing value. *)
Definition dropna (df : DataFrame) : DataFrame :=
  filter (fun row => negb (existsb is_nan (snd row))) df.

(** [label in values] *)
Definition mem (label : Z) (values : list Z) : bool := existsb (Z.eqb label) values.

(** [a.intersection(b)]: the labels of [a] that [b] has too.  (pandas
    may order and deduplicate them; only membership is used below.) *)
Definition intersection (a b : list Z) : list Z := filter (fun d => mem d b) a.

(** [idx.isin(values)] *)
Definition isin (idx values : list Z) : list bool := map (fun d => mem d values) idx.

(** [df[mask]] for a boolean mask as long as the frame. *)
Fixpoint select (df : DataFrame) (mask : list bool) : DataFrame :=
  match df, mask with
  | row :: df', b :: mask' => if b then row :: select df' mask' else select df' mask'
  | _, _ => []
  end.

End pd.

Definition clean_and_match_data (df1 df2 : pd.DataFrame) : pd.DataFrame * pd.DataFrame :=
  let df1_clean := pd.dropna df1 in
  let df2_clean := pd.dropna df2 in
  let common_dates := pd.intersection (pd.index df1_clean) (pd.index df2_clean) in
  let df1_matched := pd.select df1_clean (pd.isin (pd.index df1_clean) common_dates) in
  let df2_matched := pd.select df2_clean (pd.isin (pd.index df2_clean) common_dates) in
  (df1_matched, df2_matched).

(** Index labels in strictly increasing order, as a date index without
    duplicates is: every label is below all the later ones. *)
Fixpoint increasing (l : list Z) : Prop :=
  match l with
  | [] => True
  | x :: l' => Forall (fun y => (x < y)%Z) l' /\ increasing l'
  end.

(** ** The remaining methods of [PortfolioOptimizer] *)

Definition set_benchmark (self : PortfolioOptimizer) (r k : float) : PortfolioOptimizer :=
  {| config := config self;
     portfolio_close := portfolio_close self;
     benchmark_return := r;
     benchmark_risk := k;
     portfolio_scenarios := portfolio_scenarios self;
     optimal_portfolio := optimal_portfolio self;
     optimal_weights := optimal_weights self;
     risk_boundaries := risk_boundaries self |}.

(** [analyze_benchmark], for [benchmark_prices =
    np.array(self.benchmark_data['Close'])]. *)
Definition analyze_benchmark (benchmark_prices : list float) (self : PortfolioOptimizer)
  : result PortfolioOptimizer :=
  '(r, k) <- calculate_returns_and_risk benchmark_prices ;;
  Ok (set_benchmark self r k).

(** One step of the [np.maximum] reduction: NaN propagates. *)
Definition np_maximum (acc x : float) : float :=
  if (x <=? acc) || is_nan acc then acc else x.

(** [np.max(a)]; an empty array raises. *)
Definition np_amax (a : list float) : result float :=
  match a with
  | [] => Raise ValueError
  | x :: a' => Ok (fold_left np_maximum a' x)
  end.

(** A [dict] with string keys: the items in insertion order; setting an
    existing key replaces its value in place. *)
Fixpoint dict_set (d : list (String.string * float)) (k : String.string) (v : float)
  : list (String.string * float) :=
  match d with
  | [] => [(k, v)]
  | (k', v') :: d' =>
      if String.eqb k' k then (k', v) :: d' else (k', v') :: dict_set d' k v
  end.

Fixpoint dict_get (d : list (String.string * float)) (k : String.string) : option float :=
  match d with
  | [] => None
  | (k', v') :: d' => if String.eqb k' k then Some v' else dict_get d' k
  end.

(** [dict(zip(keys, values))] *)
Definition dict_zip (keys : list String.string) (values : list float)
  : list (String.string * float) :=
  fold_left (fun d kv => dict_set d (fst kv) (snd kv)) (combine keys values) [].

(** The exceptions of [generate_results]: those of the numeric core, a
    subscript applied to [None], an attribute never assigned. *)
Inductive report_exn : Set :=
| CoreError (e : exn)
| TypeError
| AttributeError.

Record MetricsReport : Set := {
  daily_return : float;
  daily_risk : float;
  annual_return : float;
  annual_risk : float
}.

Record SimulationStats : Set := {
  total_scenarios : Z;
  stats_min_risk : float;
  stats_max_risk : float;
  stats_min_return : float;
  stats_max_return : float
}.

(** The dictionary [self.results]. *)
Record Results : Set := {
  results_optimal : MetricsReport;
  results_weights : list (String.string * float);
  results_benchmark : MetricsReport;
  results_risk_boundaries : float * float;
  results_simulation_stats : SimulationStats
}.

Definition core {A : Type} (r : result A) : report_exn + A :=
  match r with
  | Ok a => inr a
  | Raise e => inl (CoreError e)
  end.

Definition generate_results (self : PortfolioOptimizer) : report_exn + Results :=
  match optimal_portfolio self with
  | None => inl TypeError
  | Some (opt_return, opt_risk) =>
      match core (annualize_metrics opt_return opt_risk
                                     (trade_days_per_year (config self))),
            core (annualize_metrics (benchmark_return self) (benchmark_risk self)
                                     (trade_days_per_year (config self))) with
      | inl e, _ => inl e
      | _, inl e => inl e
      | inr (annual_return, annual_risk),
        inr (annual_benchmark_return, annual_benchmark_risk) =>
      match optimal_weights self with
      | None => inl TypeError
      | Some w =>
          match risk_boundaries self with
          | None => inl AttributeError
          | Some bounds =>
              let scenarios := portfolio_scenarios self in
              match core (np.amin (tl (risks scenarios))),
                    core (np_amax (tl (risks scenarios))),
                    core (np.amin (tl (returns scenarios))),
                    core (np_amax (tl (returns scenarios))) with
              | inr min_risk, inr max_risk, inr min_return, inr max_return =>
                  inr {| results_optimal :=
                           {| daily_return := opt_return;
                              daily_risk := opt_risk;
                              annual_return := annual_return;
                              annual_risk := annual_risk |};
                         results_weights :=
                           dict_zip (portfolio_tickers (config self)) w;
                         results_benchmark :=
                           {| daily_return := benchmark_return self;
                              daily_risk := benchmark_risk self;
                              annual_return := annual_benchmark_return;
                              annual_risk := annual_benchmark_risk |};
                         results_risk_boundaries := bounds;
                         results_simulation_stats :=
                           {| total_scenarios := number_of_scenarios (config self);
                              stats_min_risk := min_risk;
                              stats_max_risk := max_risk;
                              stats_min_return := min_return;
                              stats_max_return := max_return |} |}
              | inl e, _, _, _ => inl e
              | _, inl e, _, _ => inl e
              | _, _, inl e, _ => inl e
              | _, _, _, inl e => inl e
              end
          end
      end
      end
  end.

Section Run.

Variable RandomState : Type.
Variable dirichlet : list float -> RandomState -> list float * RandomState.

(** [run_optimization] after its download step: analysis, simulation,
    optimisation and results, the first exception ending the run. *)
Definition run_optimization (benchmark_prices : list float)
  (self : PortfolioOptimizer) (g : RandomState)
  : report_exn + (PortfolioOptimizer * Results * RandomState) :=
  match analyze_benchmark benchmark_prices self with
  | Raise e => inl (CoreError e)
  | Ok self1 =>
      match simulate_portfolios RandomState dirichlet self1 g with
      | Raise e => inl (CoreError e)
      | Ok (self2, g') =>
          match optimize_portfolio self2 with
          | Raise e => inl (CoreError e)
          | Ok self3 =>
              match generate_results self3 with
              | inl e => inl e
              | inr results => inr (self3, results, g')
              end
          end
      end
  end.

End Run.

(** ** Example data *)

(** The prices of [test_calculate_returns_and_risk_constant_prices]. *)
Definition constant_prices : list float := [100; 100; 100; 100].

(** Two candidates of equal return. *)
Definition tie_portfolio_array : list (float * float) :=
  [(0.1, 0.05); (0.12, 0.04); (0.12, 0.03)].

(** A population as [simulate_portfolios] leaves it: the benchmark and
    three scenarios (the figures of [test_optimize_portfolio]). *)
Definition example_population : PortfolioOptimizer :=
  set_portfolio_scenarios example_optimizer
    {| returns := [0.001; 0.002; 0.0015; 0.003];
       risks := [0.02; 0.015; 0.025; 0.018];
       weights := [[0.3; 0.7]; [0.7; 0.3]; [0.4; 0.6]] |}.

(** Two tickers, but three price columns. *)
Definition mismatched_optimizer : PortfolioOptimizer :=
  {| config := example_config;
     portfolio_close := np.array2 [[100; 200; 50]; [105; 210; 51]; [102; 204; 52]];
     benchmark_return := 0.001;
     benchmark_risk := 0.02;
     portfolio_scenarios := {| returns := []; risks := []; weights := [] |};
     optimal_portfolio := None;
     optimal_weights := None;
     risk_boundaries := None |}.

(** The example optimizer with a trading-day count beyond the binary64
    range, which [__post_init__] accepts. *)
Definition huge_days_optimizer : PortfolioOptimizer :=
  {| config :=
       {| portfolio_tickers := example_tickers;
          number_of_scenarios := 3;
          delta_risk := 0.05;
          trade_days_per_year := 10 ^ 400 |};
     portfolio_close := portfolio_close example_optimizer;
     benchmark_return := 0.001;
     benchmark_risk := 0.02;
     portfolio_scenarios := {| returns := []; risks := []; weights := [] |};
     optimal_portfolio := None;
     optimal_weights := None;
     risk_boundaries := None |}.

(** A benchmark frame with a missing value on day 2 and a portfolio frame
    without day 3. *)
Definition example_benchmark_frame : pd.DataFrame :=
  [(1%Z, [100]); (2%Z, [nan]); (3%Z, [102]); (5%Z, [104])].
Definition example_portfolio_frame : pd.DataFrame :=
  [(1%Z, [10; 20]); (2%Z, [11; 21]); (4%Z, [12; 22]); (5%Z, [13; 23])].

(* ================================================================= *)
(** * Order facts about binary64

    The comparisons of [float] are specified by [SFcompare] on the
    decoded values; away from NaN, [<=] is a total preorder. *)

Module Float64Facts.

Lemma eqb_refl (x : float) : is_nan x = false -> (x =? x) = true.
Proof. unfold is_nan. destruct (x =? x); simpl; congruence. Qed.

Lemma not_nan_decoded (x : float) : is_nan x = false -> Prim2SF x <> S754_nan.
Proof.
  intros H E. apply eqb_refl in H.
  rewrite FloatAxioms.eqb_spec, E in H. discriminate.
Qed.

Lemma SFleb_refl (a : spec_float) : a <> S754_nan -> SFleb a a = true.
Proof.
  unfold SFleb. destruct a as [s|s| |s m e]; simpl; try congruence; intros _.
  - destruct s; reflexivity.
  - destruct s; rewrite Z.compare_refl, Pos.compare_cont_refl; reflexivity.
Qed.

Lemma SFleb_total (a b : spec_float) :
  a <> S754_nan -> b <> S754_nan -> SFleb a b = false -> SFleb b a = true.
Proof.
  unfold SFleb.
  destruct a as [s1|s1| |s1 m1 e1], b as [s2|s2| |s2 m2 e2]; simpl; try congruence;
    try (destruct s1; simpl; congruence); try (destruct s2; simpl; congruence);
    try (destruct s1, s2; simpl; congruence).
  intros _ _.
  destruct s1, s2; simpl; try congruence;
    destruct (Z.compare_spec e1 e2), (Z.compare_spec e2 e1); simpl; try congruence; try lia;
    rewrite !Pos.compare_cont_spec; simpl;
    destruct (Pos.compare_spec m1 m2), (Pos.compare_spec m2 m1); simpl; try congruence; lia.
Qed.

Lemma SFleb_trans (a b c : spec_float) :
  SFleb a b = true -> SFleb b c = true -> SFleb a c = true.
Proof.
  unfold SFleb.
  destruct a as [s1|s1| |s1 m1 e1], b as [s2|s2| |s2 m2 e2], c as [s3|s3| |s3 m3 e3];
    simpl; try congruence;
    try (destruct s1; simpl; congruence); try (destruct s2; simpl; congruence);
    try (destruct s3; simpl; congruence);
    try (destruct s1, s2; simpl; congruence); try (destruct s2, s3; simpl; congruence);
    try (destruct s1, s3; simpl; congruence);
    try (destruct s1, s2, s3; simpl; congruence).
  destruct s1, s2, s3; simpl; try congruence;
    destruct (Z.compare_spec e1 e2), (Z.compare_spec e2 e3), (Z.compare_spec e1 e3);
    simpl; try congruence; try lia; subst;
    rewrite !Pos.compare_cont_spec; simpl;
    destruct (Pos.compare_spec m1 m2), (Pos.compare_spec m2 m3), (Pos.compare_spec m1 m3);
    simpl; try congruence; lia.
Qed.

Lemma leb_refl (x : float) : is_nan x = false -> (x <=? x) = true.
Proof. intros H. rewrite leb_spec. apply SFleb_refl, not_nan_decoded, H. Qed.

Lemma leb_total (x y : float) :
  is_nan x = false -> is_nan y = false -> (x <=? y) = false -> (y <=? x) = true.
Proof.
  rewrite !leb_spec. intros Hx Hy.
  apply SFleb_total; apply not_nan_decoded; assumption.
Qed.

Lemma leb_trans (x y z : float) :
  (x <=? y) = true -> (y <=? z) = true -> (x <=? z) = true.
Proof. rewrite !leb_spec. apply SFleb_trans. Qed.

(** Rounding to nearest even is symmetric in the sign, so negation
    commutes with the product. *)
Lemma binary_round_aux_opp (sx : bool) (mx ex : Z) (lx : location) :
  binary_round_aux prec emax (negb sx) mx ex lx =
  SFopp (binary_round_aux prec emax sx mx ex lx).
Proof.
  unfold binary_round_aux.
  destruct (shr_fexp prec emax mx ex lx) as [mrs' e'].
  destruct (shr_fexp prec emax _ e' loc_Exact) as [mrs'' e''].
  destruct (shr_m mrs''); simpl; try reflexivity.
  destruct (Z.leb e'' _); reflexivity.
Qed.

Lemma SFmul_opp_l (x y : spec_float) :
  SF64mul (SFopp x) y = SFopp (SF64mul x y).
Proof.
  unfold SF64mul.
  destruct x as [sx|sx| |sx mx ex], y as [sy|sy| |sy my ey]; simpl;
    try reflexivity; try (destruct sx, sy; reflexivity).
  rewrite <- binary_round_aux_opp. destruct sx, sy; reflexivity.
Qed.

Lemma mul_opp_l (x y : float) : (- x) * y = - (x * y).
Proof.
  apply Prim2SF_inj.
  rewrite mul_spec, !opp_spec, mul_spec. apply SFmul_opp_l.
Qed.

End Float64Facts.

(* ================================================================= *)
(** * Facts about the numpy primitives *)

Module npFacts.

Lemma diff_length (a : list float) : length (np.diff a) = (length a - 1)%nat.
Proof.
  induction a as [|x [|y t] IH]; simpl in *; try reflexivity.
  rewrite IH. lia.
Qed.

Lemma tl_length {A : Type} (a : list A) : length (tl a) = (length a - 1)%nat.
Proof. destruct a; simpl; lia. Qed.

Lemma zip_with_length f (a b : list float) :
  length a = length b -> length (np.zip_with f a b) = length a.
Proof.
  revert b. induction a as [|x a IH]; intros [|y b]; simpl; intros H; try congruence.
  f_equal. apply IH. congruence.
Qed.

(** Arrays of equal length are divided element by element, and the
    division never raises. *)
Lemma divide_same_length (a b : list float) :
  length a = length b -> np.divide a b = Ok (np.zip_with div a b).
Proof.
  intros H. unfold np.divide. rewrite H, Nat.eqb_refl. reflexivity.
Qed.

(** The element at position [i] of [np.diff(p) / p[1:]]. *)
Lemma nth_diff_over_tl (p : list float) (i : nat) :
  (S i < length p)%nat ->
  nth i (np.zip_with div (np.diff p) (tl p)) 0 =
  (nth (S i) p 0 - nth i p 0) / nth (S i) p 0.
Proof.
  revert i. induction p as [|x [|y t] IH]; intros i Hi; simpl in Hi; try lia.
  destruct i as [|i].
  - reflexivity.
  - change (nth i (np.zip_with div (np.diff (y :: t)) (tl (y :: t))) 0 =
            (nth (S i) (y :: t) 0 - nth i (y :: t) 0) / nth (S i) (y :: t) 0).
    apply IH. simpl. lia.
Qed.

Lemma where_from_length {A : Type} (f : A -> bool) (l : list A) (k : nat) :
  length (np.where_from k (map f l)) = length (filter f l).
Proof.
  revert k. induction l as [|x l IH]; intros k; simpl; [reflexivity|].
  destruct (f x); simpl; rewrite IH; reflexivity.
Qed.

(** Indexing an array with the positions at which a predicate holds
    yields the elements satisfying it, in order. *)
Lemma take_where_from {A : Type} (f : A -> bool) (pre l : list A) :
  np.take (pre ++ l) (np.where_from (length pre) (map f l)) = Ok (filter f l).
Proof.
  revert pre. induction l as [|x l IH]; intros pre; simpl; [reflexivity|].
  assert (Hnext : np.take (pre ++ x :: l) (np.where_from (S (length pre)) (map f l))
                  = Ok (filter f l)).
  { specialize (IH (pre ++ [x])).
    rewrite <- app_assoc, length_app in IH. simpl in IH.
    rewrite Nat.add_1_r in IH. exact IH. }
  destruct (f x); simpl.
  - unfold np.item. rewrite nth_error_app2, Nat.sub_diag by lia. simpl.
    rewrite Hnext. reflexivity.
  - exact Hnext.
Qed.

Lemma take_where_0 {A : Type} (f : A -> bool) (l : list A) :
  np.take l (np.where_0 (map f l)) = Ok (filter f l).
Proof. exact (take_where_from f [] l). Qed.

(** What [a[idx]] holds at position [k] is what [a] holds at [idx[k]]. *)
Lemma take_nth_error {A : Type} (a : list A) (idx : list nat) (c : list A) :
  np.take a idx = Ok c ->
  length c = length idx /\
  forall k i, nth_error idx k = Some i -> nth_error a i = nth_error c k.
Proof.
  revert c. induction idx as [|i0 idx IH]; intros c H; simpl in H.
  - injection H as <-. split; [reflexivity|]. intros [|k] i Hk; discriminate.
  - unfold np.item in H. destruct (nth_error a i0) as [x|] eqn:Hx; simpl in H; [|discriminate].
    destruct (np.take a idx) as [xs|e]; simpl in H; [|discriminate].
    injection H as <-. destruct (IH xs eq_refl) as [Hl Hn].
    split; [simpl; congruence|].
    intros [|k] i Hk; simpl in *.
    + injection Hk as <-. exact Hx.
    + apply Hn, Hk.
Qed.

(** The scan returns either the running position or a later one. *)
Lemma argmax_scan_range (ip : list float) (mp : float) (max_ind i : nat) :
  (max_ind < i)%nat ->
  (np.argmax_scan mp max_ind i ip < i + length ip)%nat.
Proof.
  revert mp max_ind i. induction ip as [|x ip IH]; intros mp max_ind i H; simpl.
  - lia.
  - destruct (is_nan mp); [lia|].
    destruct (negb (x <=? mp)).
    + specialize (IH x i (S i)). lia.
    + specialize (IH mp max_ind (S i)). lia.
Qed.

Lemma argmax_bound (a : list float) (k : nat) :
  np.argmax a = Ok k -> (k < length a)%nat.
Proof.
  destruct a as [|x a]; simpl; intros H; [discriminate|].
  injection H as <-. pose proof (argmax_scan_range a x 0 1). lia.
Qed.

Lemma argmax_nonempty (a : list float) :
  a <> [] -> exists k, np.argmax a = Ok k.
Proof. destruct a; [congruence|]. intros _. eexists. reflexivity. Qed.

(** Away from NaN the scan ends on a position holding a maximum of the
    running maximum and of the elements scanned.  [pre] is the part
    already scanned, of length [i], with [mp] at [max_ind]. *)
Lemma argmax_scan_max (ip pre : list float) (mp : float) (max_ind : nat) :
  nth_error pre max_ind = Some mp ->
  is_nan mp = false ->
  Forall (fun x => is_nan x = false) ip ->
  exists v,
    nth_error (pre ++ ip) (np.argmax_scan mp max_ind (length pre) ip) = Some v /\
    (mp <=? v) = true /\
    Forall (fun x => (x <=? v) = true) ip.
Proof.
  revert pre mp max_ind. induction ip as [|x ip IH]; intros pre mp max_ind Hmp Hnan Hall.
  - exists mp. simpl. rewrite app_nil_r. repeat split; auto.
    apply Float64Facts.leb_refl, Hnan.
  - inversion Hall as [|? ? Hx Hip]; subst. simpl. rewrite Hnan.
    destruct (x <=? mp) eqn:Hle; simpl.
    + destruct (IH (pre ++ [x]) mp max_ind) as (v & Hv & Hmv & Hrest); auto.
      { rewrite nth_error_app1; [exact Hmp|]. apply nth_error_Some. congruence. }
      rewrite length_app, Nat.add_1_r, <- app_assoc in Hv. simpl in Hv.
      exists v. repeat split; auto. constructor; auto.
      eapply Float64Facts.leb_trans; eauto.
    + destruct (IH (pre ++ [x]) x (length pre)) as (v & Hv & Hxv & Hrest); auto.
      { rewrite nth_error_app2, Nat.sub_diag by lia. reflexivity. }
      rewrite length_app, Nat.add_1_r, <- app_assoc in Hv. simpl in Hv.
      exists v. repeat split; auto.
      eapply Float64Facts.leb_trans; [|exact Hxv].
      apply Float64Facts.leb_total; auto.
Qed.

(** [np.argmax] on an array without NaN returns a position of a maximum. *)
Lemma argmax_max (a : list float) :
  a <> [] ->
  Forall (fun x => is_nan x = false) a ->
  exists k v, np.argmax a = Ok k /\ nth_error a k = Some v /\
              Forall (fun x => (x <=? v) = true) a.
Proof.
  destruct a as [|x a]; [congruence|]. intros _ Hall.
  inversion Hall as [|? ? Hx Ha]; subst.
  destruct (argmax_scan_max a [x] x 0 eq_refl Hx Ha) as (v & Hv & Hxv & Hrest).
  exists (np.argmax_scan x 0 1 a), v. repeat split; auto.
Qed.

(** The minimum reduction returns one of the elements. *)
Lemma fold_minimum_In (a : list float) (x : float) :
  In (fold_left np.minimum a x) (x :: a).
Proof.
  revert x. induction a as [|y a IH]; intros x; simpl; [auto|].
  destruct (IH (np.minimum x y)) as [H|H]; [|auto].
  unfold np.minimum in H at 1.
  destruct ((x <=? y) || is_nan x); [left|right; left]; exact H.
Qed.

Lemma amin_In (a : list float) (m : float) : np.amin a = Ok m -> In m a.
Proof.
  destruct a as [|x a]; simpl; intros H; [discriminate|].
  injection H as <-. apply fold_minimum_In.
Qed.

End npFacts.

(* ================================================================= *)
(** * The return/risk estimator *)

Lemma nth_map_seq {A : Type} (f : nat -> A) (n i : nat) (d : A) :
  (i < n)%nat -> nth i (map f (seq 0 n)) d = f i.
Proof.
  intros H. rewrite (nth_indep _ d (f 0%nat)) by (rewrite length_map, length_seq; exact H).
  rewrite (map_nth f (seq 0 n) 0%nat i), seq_nth by exact H. reflexivity.
Qed.

Lemma map_nth_seq {A : Type} (l : list A) (d : A) :
  map (fun i => nth i l d) (seq 0 (length l)) = l.
Proof.
  apply (nth_ext _ _ d d).
  - rewrite length_map, length_seq. reflexivity.
  - intros i Hi. rewrite length_map, length_seq in Hi.
    exact (nth_map_seq (fun k => nth k l d) (length l) i d Hi).
Qed.

(** The returns the code computes are the later-price returns of §4.1. *)
Lemma daily_returns_later_price (p : list float) :
  daily_returns p = Ok (later_price_returns p).
Proof.
  unfold daily_returns.
  rewrite npFacts.divide_same_length
    by (rewrite npFacts.diff_length, npFacts.tl_length; reflexivity).
  f_equal. apply (nth_ext _ _ 0 0).
  - rewrite npFacts.zip_with_length
      by (rewrite npFacts.diff_length, npFacts.tl_length; reflexivity).
    unfold later_price_returns.
    rewrite npFacts.diff_length, length_map, length_seq. reflexivity.
  - intros i Hi.
    rewrite npFacts.zip_with_length in Hi
      by (rewrite npFacts.diff_length, npFacts.tl_length; reflexivity).
    rewrite npFacts.diff_length in Hi.
    rewrite npFacts.nth_diff_over_tl by lia.
    unfold later_price_returns. rewrite nth_map_seq by exact Hi. reflexivity.
Qed.

Lemma later_price_returns_length (p : list float) :
  length (later_price_returns p) = (length p - 1)%nat.
Proof. unfold later_price_returns. rewrite length_map, length_seq. reflexivity. Qed.

Lemma std_is_std_over (r : list float) : np.std r = std_over (length r) r.
Proof. unfold np.std, std_over, mean_over. rewrite map_map. reflexivity. Qed.

(** C2: for a price series [p] of length [L >= 2],
    [calculate_returns_and_risk p] returns the mean and the population
    standard deviation, both with divisor [L - 1], of the [L - 1] returns
    [r[i] = (p[i+1] - p[i]) / p[i+1]]: the denominator is the later
    price.  (The equation needs no assumption on the sign of the prices.) *)
Theorem calculate_returns_and_risk_later_price (p : list float) :
  (2 <= length p)%nat ->
  let r := later_price_returns p in
  length r = (length p - 1)%nat /\
  (forall i, (i < length p - 1)%nat ->
     nth i r 0 = (nth (S i) p 0 - nth i p 0) / nth (S i) p 0) /\
  calculate_returns_and_risk p =
    Ok (mean_over (length p - 1) r, std_over (length p - 1) r).
Proof.
  intros HL r. split; [apply later_price_returns_length|]. split.
  - intros i Hi. unfold r, later_price_returns.
    exact (nth_map_seq _ _ i 0 Hi).
  - unfold calculate_returns_and_risk. rewrite daily_returns_later_price. simpl.
    rewrite std_is_std_over. unfold np.average, mean_over. fold r.
    rewrite (later_price_returns_length p : length r = _). reflexivity.
Qed.

Lemma calculate_returns_and_risk_later_price_witness :
  (2 <= length example_prices)%nat /\
  calculate_returns_and_risk example_prices =
    Ok (mean_over 4 (later_price_returns example_prices),
        std_over 4 (later_price_returns example_prices)).
Proof.
  split.
  - simpl. lia.
  - apply (calculate_returns_and_risk_later_price example_prices). simpl. lia.
Defined.

(** The estimator validates nothing: whatever the series, the division
    is between arrays of one length and a pair comes back. *)
Lemma calculate_returns_and_risk_value (p : list float) :
  calculate_returns_and_risk p =
    Ok (np.average (later_price_returns p), np.std (later_price_returns p)).
Proof.
  unfold calculate_returns_and_risk. rewrite daily_returns_later_price. reflexivity.
Qed.

(** §8 as listed does not hold of the code: the first listed return, 0.05,
    is the earlier-price quotient 5/100; the code computes 5/105, and its
    mean is off the mean of the listed values by about 6e-4. *)
Lemma example_as_listed_fails : ~ example_as_listed.
Proof.
  intros (rs & out & Hrs & _ & Hclose & _).
  vm_compute in Hrs. injection Hrs as <-.
  vm_compute in Hclose. discriminate.
Qed.

(** The estimator's mean for the example is 0.0229861..., the mean of the
    listed values 0.0235814... *)
Example example_mean_off_listed :
  exists out,
    calculate_returns_and_risk example_prices = Ok out /\
    Float64.close 1e-6 (fst out) (np.average listed_returns) = false /\
    Float64.close 1e-3 (fst out) (np.average listed_returns) = true.
Proof. eexists. repeat split; vm_compute; reflexivity. Qed.

(** What the code computes for the prices [100, 105, 102, 108, 110]: the
    per-step returns [5/105, -3/102, 6/108, 2/110], that is
    [0.047619..., -0.029411..., 0.055555..., 0.018181...], and their mean
    and population standard deviation (0.0229861..., 0.0333022...). *)
Lemma example_later_price_returns :
  daily_returns example_prices = Ok later_price_example_returns /\
  all_close 1e-6 later_price_example_returns
            [0.047619; -0.029411; 0.055555; 0.018181] = true /\
  (exists out,
     calculate_returns_and_risk example_prices = Ok out /\
     Float64.close 1e-6 (fst out) (np.average later_price_example_returns) = true /\
     Float64.close 1e-6 (snd out) (np.std later_price_example_returns) = true /\
     Float64.close 1e-6 (fst out) 0.022986 = true /\
     Float64.close 1e-6 (snd out) 0.033302 = true).
Proof.
  split; [vm_compute; reflexivity|]. split; [vm_compute; reflexivity|].
  eexists. split; [vm_compute; reflexivity|].
  repeat split; vm_compute; reflexivity.
Qed.

(** C3: on the prices [100, 105, 102, 108, 110] of §8, which are those of
    [test_calculate_returns_and_risk_basic], the first per-step return the
    code computes is 5/105 = 0.047619..., not the 0.05 that §8 and the test
    both list, and its output (0.0229861..., 0.0333022...) is further than
    1e-6 from the mean and the deviation of the values of §8
    (0.0235814..., 0.0337...) and from those of the values the test
    expects (0.0246925, 0.0342...): both assertions of the test fail. *)
Theorem example_against_test :
  exists rs out,
    daily_returns example_prices = Ok rs /\
    calculate_returns_and_risk example_prices = Ok out /\
    nth 0 rs 0 = 5 / 105 /\
    Float64.close 1e-6 (nth 0 rs 0) 0.05 = false /\
    Float64.close 1e-6 (fst out) 0.022986 = true /\
    Float64.close 1e-6 (snd out) 0.033302 = true /\
    Float64.close 1e-6 (fst out) (np.average listed_returns) = false /\
    Float64.close 1e-6 (snd out) (np.std listed_returns) = false /\
    Float64.close 1e-6 (fst out) (np.average test_expected_returns) = false /\
    Float64.close 1e-6 (snd out) (np.std test_expected_returns) = false.
Proof.
  eexists. eexists.
  split; [vm_compute; reflexivity|]. split; [vm_compute; reflexivity|].
  repeat split; vm_compute; reflexivity.
Qed.

(** C4, as stated, fails: a series with a negative price (and the empty
    series, and a series with a zero) is processed without an error. *)
Lemma calculate_returns_and_risk_no_validation :
  ~ (forall prices : list float,
       (length prices < 2)%nat \/ Exists (fun x => (x <=? 0) = true) prices ->
       exists e, calculate_returns_and_risk prices = Raise e).
Proof.
  intros H.
  destruct (H [100; -50; 25]) as [e He].
  - right. apply Exists_cons_tl, Exists_cons_hd. vm_compute. reflexivity.
  - vm_compute in He. discriminate.
Qed.

(** What the estimator returns where §4.1 announces an error. *)
Example calculate_returns_and_risk_short_series (x : float) :
  calculate_returns_and_risk [] = Ok (nan, nan) /\
  calculate_returns_and_risk [x] = Ok (nan, nan).
Proof. split; vm_compute; reflexivity. Qed.

Example calculate_returns_and_risk_bad_prices :
  calculate_returns_and_risk [100; -50; 25] = Ok (3, 0) /\
  calculate_returns_and_risk [100; 0; 50] = Ok (neg_infinity, nan).
Proof. split; vm_compute; reflexivity. Qed.

(** C4, amended: [calculate_returns_and_risk] validates nothing and
    raises for no price series.  Whatever the series [p], of length [L], it
    returns the average and the population standard deviation of the
    later-price returns [r[i] = (p[i+1] - p[i]) / p[i+1]], [i < L - 1];
    that is [(NaN, NaN)] for a series of fewer than two points; and a zero
    or negative price is divided by like any other: [100, -50, 25] gives
    [(3, 0)] and [100, 0, 50] gives [(-inf, NaN)]. *)
Theorem calculate_returns_and_risk_total (prices : list float) :
  let r := later_price_returns prices in
  calculate_returns_and_risk prices =
    Ok (mean_over (length prices - 1) r, std_over (length prices - 1) r) /\
  length r = (length prices - 1)%nat /\
  (forall i, (i < length prices - 1)%nat ->
     nth i r 0 = (nth (S i) prices 0 - nth i prices 0) / nth (S i) prices 0) /\
  (forall e, calculate_returns_and_risk prices <> Raise e) /\
  ((length prices <? 2)%nat = true ->
   calculate_returns_and_risk prices = Ok (nan, nan)) /\
  calculate_returns_and_risk [100; -50; 25] = Ok (3, 0) /\
  calculate_returns_and_risk [100; 0; 50] = Ok (neg_infinity, nan).
Proof.
  intros r. split; [|split; [|split; [|split; [|split; [|split]]]]].
  - rewrite calculate_returns_and_risk_value, std_is_std_over.
    unfold np.average, mean_over. fold r.
    rewrite (later_price_returns_length prices : length r = _). reflexivity.
  - apply later_price_returns_length.
  - intros i Hi. unfold r, later_price_returns.
    exact (nth_map_seq _ _ i 0 Hi).
  - intros e. rewrite calculate_returns_and_risk_value. discriminate.
  - destruct prices as [|x [|y t]]; simpl; intros H; try discriminate;
      vm_compute; reflexivity.
  - vm_compute. reflexivity.
  - vm_compute. reflexivity.
Qed.

Lemma calculate_returns_and_risk_total_witness :
  (length [100] <? 2)%nat = true /\
  calculate_returns_and_risk [100] = Ok (nan, nan).
Proof.
  split; [reflexivity|].
  apply (proj1 (proj2 (proj2 (proj2 (proj2
    (calculate_returns_and_risk_total [100])))))). reflexivity.
Defined.

(* ================================================================= *)
(** * The portfolio metric evaluator *)

(** After the weighted sum, the evaluator repeats the estimator. *)
Lemma calculate_portfolio_metrics_unfold (w : list float) (A : ndarray2) :
  calculate_portfolio_metrics w A =
    (portfolio_prices <- np.matmul w (np.transpose A) ;;
     calculate_returns_and_risk portfolio_prices).
Proof. reflexivity. Qed.

(** Column [d] of [A.T] is row [d] of [A]. *)
Lemma transpose_column (A : ndarray2) (d : nat) :
  well_shaped A -> (d < nrows A)%nat ->
  map (fun a => np.item2 (np.transpose A) a d) (seq 0 (ncols A)) = nth d (rows A) [].
Proof.
  intros [Hrows Hcols] Hd.
  assert (Hlen : length (nth d (rows A) []) = ncols A).
  { rewrite Forall_forall in Hcols. apply Hcols, nth_In. lia. }
  rewrite <- (map_nth_seq (nth d (rows A) []) 0) at 1. rewrite Hlen.
  apply map_ext_in. intros a Ha. apply in_seq in Ha.
  unfold np.item2 at 1. simpl.
  rewrite (nth_map_seq _ (ncols A) a []) by lia.
  rewrite (nth_map_seq _ (nrows A) d 0) by lia.
  reflexivity.
Qed.

(** With one row per day, [np.matmul(weights, asset_prices.T)] is the
    weighted sum of every day's prices; it needs one weight per column. *)
Lemma matmul_transpose_by_day (w : list float) (A : ndarray2) :
  well_shaped A -> length w = ncols A ->
  np.matmul w (np.transpose A) = Ok (synthetic_prices_by_day w A).
Proof.
  intros HA Hw. unfold np.matmul. simpl. rewrite Hw, Nat.eqb_refl. f_equal.
  unfold synthetic_prices_by_day.
  rewrite <- (map_nth_seq (rows A) []) at 1. rewrite map_map.
  destruct HA as [Hrows Hcols]. rewrite Hrows.
  apply map_ext_in. intros d Hd. apply in_seq in Hd.
  rewrite transpose_column by (try split; auto; lia). reflexivity.
Qed.

(** On the layout [simulate_portfolios] passes (one row per day, one
    column per asset) the evaluator is the estimator applied to the
    weighted-sum series, and it does not raise. *)
Lemma calculate_portfolio_metrics_by_day (w : list float) (A : ndarray2) :
  well_shaped A -> length w = ncols A ->
  calculate_portfolio_metrics w A =
    calculate_returns_and_risk (synthetic_prices_by_day w A).
Proof.
  intros HA Hw. rewrite calculate_portfolio_metrics_unfold.
  rewrite matmul_transpose_by_day by assumption. reflexivity.
Qed.

(** A weight vector of the wrong length raises. *)
Lemma calculate_portfolio_metrics_mismatch (w : list float) (A : ndarray2) :
  length w <> ncols A -> calculate_portfolio_metrics w A = Raise ValueError.
Proof.
  intros H. rewrite calculate_portfolio_metrics_unfold. unfold np.matmul. simpl.
  apply Nat.eqb_neq in H. rewrite H. reflexivity.
Qed.

(** C5, on the data of [test_calculate_portfolio_metrics] (two assets,
    four days, one row per asset as the docstring prescribes): the
    weighted-sum series is [150, 157.5, 153, 162] and the estimator accepts
    it, but [calculate_portfolio_metrics] multiplies by the transposed
    matrix and raises. *)
Theorem calculate_portfolio_metrics_asset_rows :
  well_shaped test_asset_prices /\
  length test_weights = nrows test_asset_prices /\
  synthetic_prices test_weights test_asset_prices = [150; 157.5; 153; 162] /\
  (exists m, calculate_returns_and_risk
               (synthetic_prices test_weights test_asset_prices) = Ok m) /\
  calculate_portfolio_metrics test_weights test_asset_prices = Raise ValueError.
Proof.
  split; [split; [reflexivity | repeat constructor]|].
  split; [reflexivity|].
  split; [vm_compute; reflexivity|].
  split; [eexists; vm_compute; reflexivity|].
  vm_compute. reflexivity.
Qed.

(** When there are as many days as assets the product is defined, but
    it sums over the days: with all weight on the first asset the code
    evaluates the series [100, 200] (the first day of both assets) instead
    of the first asset's prices [100, 110]. *)
Example calculate_portfolio_metrics_square :
  synthetic_prices square_weights square_asset_prices = [100; 110] /\
  np.matmul square_weights (np.transpose square_asset_prices) = Ok [100; 200] /\
  calculate_portfolio_metrics square_weights square_asset_prices = Ok (0.5, 0) /\
  calculate_returns_and_risk (synthetic_prices square_weights square_asset_prices)
    = Ok (10 / 110, 0).
Proof. repeat split; vm_compute; reflexivity. Qed.

(* ================================================================= *)
(** * The optimal selector *)

Lemma acceptable_indices (pa : list (float * float)) (max_risk : float) :
  np.where_0 (map (fun r => r <=? max_risk) (column1 pa)) =
  np.where_0 (map (acceptable max_risk) pa).
Proof. unfold column1. rewrite map_map. reflexivity. Qed.

Lemma min_risk_indices (pa : list (float * float)) (min_risk : float) :
  np.where_0 (map (fun r => r =? min_risk) (column1 pa)) =
  np.where_0 (map (at_min_risk min_risk) pa).
Proof. unfold column1. rewrite map_map. reflexivity. Qed.

(** The two branches run the same scan, on the acceptable positions when
    there are at least two of them and on the minimum-risk positions
    otherwise. *)
Lemma find_optimal_portfolio_branches (pa : list (float * float)) (max_risk min_risk : float) :
  find_optimal_portfolio pa max_risk min_risk =
    if (1 <? length (filter (acceptable max_risk) pa))%nat
    then select_among pa (np.where_0 (map (acceptable max_risk) pa))
    else select_among pa (np.where_0 (map (at_min_risk min_risk) pa)).
Proof.
  unfold find_optimal_portfolio.
  rewrite acceptable_indices, min_risk_indices.
  unfold np.where_0 at 1. rewrite npFacts.where_from_length.
  reflexivity.
Qed.

(** Whatever the index array, a successful scan returns a position of
    the record array together with the record stored there. *)
Lemma select_among_index (pa : list (float * float)) (idxs : list nat)
  (best : float * float) (idx : nat) :
  select_among pa idxs = Ok (best, idx) -> nth_error pa idx = Some best.
Proof.
  unfold select_among. intros H.
  destruct (np.take pa idxs) as [c|e] eqn:Hc; simpl in H; [|discriminate].
  destruct (np.argmax (column0 c)) as [k|e]; simpl in H; [|discriminate].
  unfold np.item in H.
  destruct (nth_error idxs k) as [i|] eqn:Hi; simpl in H; [|discriminate].
  destruct (nth_error c k) as [b|] eqn:Hb; simpl in H; [|discriminate].
  injection H as <- <-.
  destruct (npFacts.take_nth_error pa idxs c Hc) as [_ Hn].
  rewrite (Hn k i Hi). exact Hb.
Qed.

(** No candidate: [np.argmax] raises on the empty candidate array. *)
Lemma select_among_none (cand : float * float -> bool) (pa : list (float * float)) :
  filter cand pa = [] ->
  select_among pa (np.where_0 (map cand pa)) = Raise ValueError.
Proof.
  intros H. unfold select_among. rewrite npFacts.take_where_0, H. reflexivity.
Qed.

(** At least one candidate: the scan succeeds on a candidate, and on one
    of maximal return when no return is NaN. *)
Lemma select_among_some (cand : float * float -> bool) (pa : list (float * float)) :
  filter cand pa <> [] ->
  exists best idx,
    select_among pa (np.where_0 (map cand pa)) = Ok (best, idx) /\
    cand best = true /\
    (Forall (fun r => is_nan (fst r) = false) pa ->
     forall r, In r pa -> cand r = true -> (fst r <=? fst best) = true).
Proof.
  intros Hne.
  set (c := filter cand pa) in *.
  set (idxs := np.where_0 (map cand pa)).
  assert (Hlen : length idxs = length c)
    by (unfold idxs, np.where_0; apply npFacts.where_from_length).
  assert (Hc0 : column0 c <> []) by (destruct c; simpl; congruence).
  destruct (npFacts.argmax_nonempty _ Hc0) as [k Hk].
  pose proof (npFacts.argmax_bound _ _ Hk) as Hkb.
  unfold column0 in Hkb. rewrite length_map in Hkb.
  destruct (nth_error c k) as [b|] eqn:Hb;
    [|apply nth_error_None in Hb; lia].
  destruct (nth_error idxs k) as [i|] eqn:Hi;
    [|apply nth_error_None in Hi; lia].
  exists b, i. split; [|split].
  - unfold select_among. fold idxs. unfold idxs at 1.
    rewrite npFacts.take_where_0. fold c. simpl. rewrite Hk. simpl.
    unfold np.item. rewrite Hi, Hb. reflexivity.
  - apply nth_error_In in Hb. apply filter_In in Hb. tauto.
  - intros Hnan r Hr Hcand.
    assert (Hall : Forall (fun x => is_nan x = false) (column0 c)).
    { apply Forall_forall. intros x Hx. unfold column0 in Hx.
      apply in_map_iff in Hx. destruct Hx as (r' & <- & Hr').
      apply filter_In in Hr'. rewrite Forall_forall in Hnan. apply Hnan. tauto. }
    destruct (npFacts.argmax_max _ Hc0 Hall) as (k' & v & Hk' & Hv & Hmax).
    rewrite Hk in Hk'. injection Hk' as <-.
    unfold column0 in Hv. rewrite nth_error_map, Hb in Hv. simpl in Hv.
    injection Hv as <-.
    rewrite Forall_forall in Hmax. apply Hmax.
    unfold column0. apply in_map. apply filter_In. tauto.
Qed.

(** C1, as stated, fails: with no acceptable record and no record at
    [min_risk] there is nothing to return, and the scan raises. *)
Lemma selection_policy_without_min_risk_record :
  ~ (forall (pa : list (float * float)) (max_risk min_risk : float),
       pa <> [] ->
       Forall (fun r => is_nan (fst r) = false) pa ->
       selection_policy pa max_risk min_risk
                        (find_optimal_portfolio pa max_risk min_risk)).
Proof.
  intros H.
  destruct (H [(0.1, 0.05)] 0.02 0.01) as (best & idx & Hres & _).
  - discriminate.
  - repeat constructor.
  - vm_compute in Hres. discriminate.
Qed.

Example find_optimal_portfolio_no_candidate :
  find_optimal_portfolio [(0.1, 0.05)] 0.02 0.01 = Raise ValueError.
Proof. vm_compute. reflexivity. Qed.

(** C1, amended: for a non-empty array of records with no NaN return:
    if some record has risk equal to [min_risk] whenever at most one
    record is acceptable (as when [min_risk] is the minimum of the risks),
    then with more than one acceptable record the function returns a
    maximum-return record among the acceptable ones, and otherwise it
    returns a maximum-return record among those whose risk equals
    [min_risk], a single acceptable record being ignored; if at most one
    record is acceptable and none has risk equal to [min_risk], the
    function raises. *)
Theorem find_optimal_portfolio_policy
  (pa : list (float * float)) (max_risk min_risk : float) :
  pa <> [] ->
  Forall (fun r => is_nan (fst r) = false) pa ->
  (((length (filter (acceptable max_risk) pa) <= 1)%nat ->
    exists r, In r pa /\ at_min_risk min_risk r = true) ->
   selection_policy pa max_risk min_risk
                    (find_optimal_portfolio pa max_risk min_risk)) /\
  ((length (filter (acceptable max_risk) pa) <= 1)%nat ->
   (forall r, In r pa -> at_min_risk min_risk r = false) ->
   find_optimal_portfolio pa max_risk min_risk = Raise ValueError).
Proof.
  intros _ Hnan. split.
  - intros Hmin. unfold selection_policy.
    rewrite find_optimal_portfolio_branches.
    destruct (1 <? length (filter (acceptable max_risk) pa))%nat eqn:Hcount.
    + apply Nat.ltb_lt in Hcount.
      destruct (select_among_some (acceptable max_risk) pa) as (b & i & Hres & Hb & Hmax).
      { intros E. rewrite E in Hcount. simpl in Hcount. lia. }
      exists b, i. split; [exact Hres|]. split; [|split; auto].
      eapply select_among_index, Hres.
    + apply Nat.ltb_ge in Hcount.
      destruct (Hmin Hcount) as (r & Hr & Hrmin).
      destruct (select_among_some (at_min_risk min_risk) pa) as (b & i & Hres & Hb & Hmax).
      { intros E. assert (Hin : In r (filter (at_min_risk min_risk) pa))
          by (apply filter_In; tauto).
        rewrite E in Hin. exact Hin. }
      exists b, i. split; [exact Hres|]. split; [|split; auto].
      eapply select_among_index, Hres.
  - intros Hcount Hnone. rewrite find_optimal_portfolio_branches.
    apply Nat.ltb_ge in Hcount. rewrite Hcount.
    apply select_among_none.
    destruct (filter (at_min_risk min_risk) pa) as [|r l] eqn:E; [reflexivity|].
    assert (Hin : In r (filter (at_min_risk min_risk) pa)) by (rewrite E; left; reflexivity).
    apply filter_In in Hin. destruct Hin as [Hin Hr].
    rewrite (Hnone r Hin) in Hr. discriminate.
Qed.

Lemma find_optimal_portfolio_policy_witness :
  selection_policy test_portfolio_array 0.035 0.04
                   (find_optimal_portfolio test_portfolio_array 0.035 0.04).
Proof.
  apply (find_optimal_portfolio_policy test_portfolio_array 0.035 0.04).
  - discriminate.
  - repeat constructor.
  - intros _. exists (0.06, 0.04). split; [simpl; tauto | vm_compute; reflexivity].
Defined.

(** The policy on the data of the test-suite: three acceptable records
    give the best of them; one acceptable record (at position 1) is passed
    over for the record at [min_risk] (position 3). *)
Example find_optimal_portfolio_tests :
  find_optimal_portfolio test_portfolio_array 0.06 0.03 = Ok ((0.1, 0.05), 0%nat) /\
  find_optimal_portfolio test_portfolio_array 0.02 0.03 = Ok ((0.08, 0.03), 1%nat) /\
  find_optimal_portfolio test_portfolio_array 0.035 0.04 = Ok ((0.06, 0.04), 3%nat).
Proof. repeat split; vm_compute; reflexivity. Qed.

(** The minimum of risks that are not NaN is the risk of some record. *)
Lemma min_risk_record (pa : list (float * float)) (min_risk : float) :
  Forall (fun r => is_nan (snd r) = false) pa ->
  np.amin (column1 pa) = Ok min_risk ->
  exists r, In r pa /\ at_min_risk min_risk r = true.
Proof.
  intros Hnan Hmin. apply npFacts.amin_In in Hmin.
  unfold column1 in Hmin. apply in_map_iff in Hmin.
  destruct Hmin as (r & Hr & Hin). exists r. split; [exact Hin|].
  unfold at_min_risk. rewrite Hr. apply Float64Facts.eqb_refl.
  rewrite <- Hr. rewrite Forall_forall in Hnan. apply Hnan, Hin.
Qed.

(** With a record at [min_risk], one of the two candidate sets is
    inhabited and a record is returned. *)
Lemma find_optimal_portfolio_returns
  (pa : list (float * float)) (max_risk min_risk : float) :
  filter (at_min_risk min_risk) pa <> [] ->
  exists best idx, find_optimal_portfolio pa max_risk min_risk = Ok (best, idx).
Proof.
  intros Hfallback. rewrite find_optimal_portfolio_branches.
  destruct (1 <? length (filter (acceptable max_risk) pa))%nat eqn:Hcount.
  - apply Nat.ltb_lt in Hcount.
    destruct (select_among_some (acceptable max_risk) pa) as (b & i & Hres & _).
    { intros E. rewrite E in Hcount. simpl in Hcount. lia. }
    exists b, i. exact Hres.
  - destruct (select_among_some (at_min_risk min_risk) pa Hfallback)
      as (b & i & Hres & _).
    exists b, i. exact Hres.
Qed.

Lemma min_risk_candidates (pa : list (float * float)) (min_risk : float) :
  Forall (fun r => is_nan (snd r) = false) pa ->
  np.amin (column1 pa) = Ok min_risk ->
  filter (at_min_risk min_risk) pa <> [].
Proof.
  intros Hnan Hmin E.
  destruct (min_risk_record pa min_risk Hnan Hmin) as (r & Hin & Hr).
  assert (Hf : In r (filter (at_min_risk min_risk) pa)) by (apply filter_In; tauto).
  rewrite E in Hf. exact Hf.
Qed.

(** C6: when [min_risk] is [np.min] of the risks (none of them NaN),
    [find_optimal_portfolio] raises exactly on the empty record array: on
    a non-empty one some record has risk equal to [min_risk], so the
    fallback candidate set is inhabited and a record is returned. *)
Theorem find_optimal_portfolio_raises_iff_empty
  (pa : list (float * float)) (max_risk min_risk : float) :
  Forall (fun r => is_nan (snd r) = false) pa ->
  (pa <> [] -> np.amin (column1 pa) = Ok min_risk) ->
  ((exists e, find_optimal_portfolio pa max_risk min_risk = Raise e) <-> pa = []) /\
  (pa = [] -> find_optimal_portfolio pa max_risk min_risk = Raise ValueError) /\
  (pa <> [] -> filter (at_min_risk min_risk) pa <> []) /\
  (pa <> [] -> exists best idx,
      find_optimal_portfolio pa max_risk min_risk = Ok (best, idx)).
Proof.
  intros Hnan Hmin.
  assert (Hempty : pa = [] -> find_optimal_portfolio pa max_risk min_risk = Raise ValueError)
    by (intros ->; reflexivity).
  assert (Hfallback : pa <> [] -> filter (at_min_risk min_risk) pa <> [])
    by (intros Hne; apply min_risk_candidates; auto).
  assert (Hok : pa <> [] -> exists best idx,
             find_optimal_portfolio pa max_risk min_risk = Ok (best, idx))
    by (intros Hne; apply find_optimal_portfolio_returns; auto).
  repeat split; auto.
  - intros [e He]. destruct pa as [|r pa]; [reflexivity|].
    destruct Hok as (b & i & Hres); [discriminate|]. congruence.
  - intros E. exists ValueError. auto.
Qed.

Lemma find_optimal_portfolio_raises_iff_empty_witness :
  (exists best idx,
     find_optimal_portfolio test_portfolio_array 0.02 0.03 = Ok (best, idx)) /\
  find_optimal_portfolio [] 0.02 0.03 = Raise ValueError.
Proof.
  split.
  - apply (find_optimal_portfolio_raises_iff_empty test_portfolio_array 0.02 0.03).
    + repeat constructor.
    + intros _. vm_compute. reflexivity.
    + discriminate.
  - apply (find_optimal_portfolio_raises_iff_empty [] 0.02 0.03).
    + constructor.
    + intros H. exfalso. apply H. reflexivity.
    + reflexivity.
Defined.

(** Both branches return the record stored at the returned position. *)
Lemma find_optimal_portfolio_stored
  (pa : list (float * float)) (max_risk min_risk : float)
  (best : float * float) (idx : nat) :
  find_optimal_portfolio pa max_risk min_risk = Ok (best, idx) ->
  nth_error pa idx = Some best.
Proof.
  rewrite find_optimal_portfolio_branches. intros H.
  destruct (1 <? _)%nat; eapply select_among_index, H.
Qed.

(** C10: when [find_optimal_portfolio] succeeds, the index it returns is
    a position of the record array and the record it returns is the one
    stored there. *)
Theorem find_optimal_portfolio_index
  (pa : list (float * float)) (max_risk min_risk : float)
  (best : float * float) (idx : nat) :
  find_optimal_portfolio pa max_risk min_risk = Ok (best, idx) ->
  pa <> [] /\ (idx < length pa)%nat /\ nth_error pa idx = Some best.
Proof.
  intros H. pose proof (find_optimal_portfolio_stored _ _ _ _ _ H) as Hn.
  split; [|split; [|exact Hn]].
  - intros ->. destruct idx; discriminate.
  - apply nth_error_Some. congruence.
Qed.

Lemma find_optimal_portfolio_index_witness :
  (0 < length test_portfolio_array)%nat /\
  nth_error test_portfolio_array 0 = Some (0.1, 0.05).
Proof.
  apply (find_optimal_portfolio_index test_portfolio_array 0.06 0.03 (0.1, 0.05) 0).
  vm_compute. reflexivity.
Defined.

(** The caller's side of C10: a successful [optimize_portfolio] stores
    the metrics of scenario [idx + 1] of the population (position 0 being
    the benchmark) together with the weights at position [idx] of the
    weight list, for one and the same [idx]. *)
Lemma optimize_portfolio_pairing (self self' : PortfolioOptimizer) :
  optimize_portfolio self = Ok self' ->
  exists idx r k w,
    nth_error (returns (portfolio_scenarios self)) (S idx) = Some r /\
    nth_error (risks (portfolio_scenarios self)) (S idx) = Some k /\
    nth_error (weights (portfolio_scenarios self)) idx = Some w /\
    optimal_portfolio self' = Some (r, k) /\
    optimal_weights self' = Some w.
Proof.
  unfold optimize_portfolio. intros H.
  destruct (np.column_stack _ _) as [pa|e] eqn:Hpa; simpl in H; [|discriminate].
  destruct (np.amin _) as [m|e]; simpl in H; [|discriminate].
  destruct (find_optimal_portfolio _ _ _) as [[[r k] idx]|e] eqn:Hfind;
    simpl in H; [|discriminate].
  unfold np.item in H.
  destruct (nth_error (weights (portfolio_scenarios self)) idx) as [w|] eqn:Hw;
    simpl in H; [|discriminate].
  injection H as <-.
  apply find_optimal_portfolio_stored in Hfind. rename Hfind into Hn.
  unfold np.column_stack in Hpa.
  destruct (_ =? _)%nat eqn:Hlen; [|discriminate]. injection Hpa as <-.
  apply Nat.eqb_eq in Hlen.
  exists idx, r, k, w.
  assert (Hrk : nth_error (tl (returns (portfolio_scenarios self))) idx = Some r /\
                nth_error (tl (risks (portfolio_scenarios self))) idx = Some k).
  { revert Hn Hlen. generalize (tl (returns (portfolio_scenarios self))) as a.
    generalize (tl (risks (portfolio_scenarios self))) as b. clear.
    intros b a. revert b idx. induction a as [|x a IH]; intros [|y b] [|i]; simpl;
      intros Hn Hlen; try discriminate.
    - injection Hn as <- <-. auto.
    - apply IH; [exact Hn | congruence]. }
  destruct Hrk as [Hr Hk].
  repeat split; simpl; auto.
  - destruct (returns (portfolio_scenarios self)); [destruct idx; discriminate|exact Hr].
  - destruct (risks (portfolio_scenarios self)); [destruct idx; discriminate|exact Hk].
Qed.

Lemma column1_combine (a b : list float) :
  length a = length b -> column1 (combine a b) = b.
Proof.
  unfold column1. revert b. induction a as [|x a IH]; intros [|y b] H;
    simpl in *; try congruence.
  f_equal. apply IH. congruence.
Qed.

(** On a population of [K + 1] returns and risks and [K] weight vectors,
    [K >= 1], with no NaN risk, [optimize_portfolio] finds an optimum. *)
Lemma optimize_portfolio_succeeds (self : PortfolioOptimizer) (K : nat) :
  (1 <= K)%nat ->
  length (returns (portfolio_scenarios self)) = S K ->
  length (risks (portfolio_scenarios self)) = S K ->
  length (weights (portfolio_scenarios self)) = K ->
  Forall (fun k => is_nan k = false) (risks (portfolio_scenarios self)) ->
  exists self', optimize_portfolio self = Ok self'.
Proof.
  intros HK Hr Hk Hw Hnan. unfold optimize_portfolio.
  destruct (returns (portfolio_scenarios self)) as [|r0 a]; [discriminate|].
  destruct (risks (portfolio_scenarios self)) as [|k0 b]; [discriminate|].
  simpl in *. injection Hr as Hr. injection Hk as Hk.
  inversion Hnan as [|? ? _ Hb]; subst.
  assert (Hab : length a = length b) by congruence.
  unfold np.column_stack. rewrite Hab, Nat.eqb_refl. simpl.
  destruct (np.amin b) as [m|e] eqn:Hm; [|destruct b; [simpl in *; lia | discriminate]].
  simpl.
  assert (Hpa : Forall (fun r => is_nan (snd r) = false) (combine a b)).
  { apply Forall_forall. intros [x y] Hin. apply in_combine_r in Hin.
    rewrite Forall_forall in Hb. apply Hb, Hin. }
  rewrite <- (column1_combine a b Hab) in Hm.
  destruct (find_optimal_portfolio_returns (combine a b)
              (benchmark_risk self * (1 + delta_risk (config self))) m
              (min_risk_candidates _ _ Hpa Hm)) as (best & idx & Hfind).
  rewrite Hfind. simpl.
  apply find_optimal_portfolio_stored in Hfind.
  assert (Hidx : (idx < length (combine a b))%nat)
    by (apply nth_error_Some; congruence).
  rewrite length_combine in Hidx.
  unfold np.item.
  destruct (nth_error (weights (portfolio_scenarios self)) idx) eqn:Hwi;
    [|apply nth_error_None in Hwi; lia].
  simpl. eexists. reflexivity.
Qed.

(* ================================================================= *)
(** * The scenario engine *)

Section SimulationFacts.

Variable RandomState : Type.
Variable dirichlet : list float -> RandomState -> list float * RandomState.

(** numpy's sampler returns one component per concentration parameter. *)
Hypothesis dirichlet_length :
  forall alpha g, length (fst (dirichlet alpha g)) = length alpha.

Variable self : PortfolioOptimizer.

Let n_assets := length (portfolio_tickers (config self)).
Let draw (i : nat) (g : RandomState) : list float :=
  fst (generate_random_portfolio_weights RandomState dirichlet n_assets
         (state_after RandomState dirichlet n_assets i g)).

(** The close prices hold one row per day and one column per ticker. *)
Hypothesis close_shape : well_shaped (portfolio_close self).
Hypothesis close_columns : ncols (portfolio_close self) = n_assets.

Lemma generate_random_portfolio_weights_length (g : RandomState) :
  length (fst (generate_random_portfolio_weights RandomState dirichlet n_assets g))
  = n_assets.
Proof.
  unfold generate_random_portfolio_weights.
  rewrite dirichlet_length. unfold np.ones. apply repeat_length.
Qed.

(** Every drawn weight vector is evaluated without an exception. *)
Lemma drawn_weights_evaluate (g : RandomState) :
  exists r k,
    calculate_portfolio_metrics
      (fst (generate_random_portfolio_weights RandomState dirichlet n_assets g))
      (portfolio_close self) = Ok (r, k).
Proof.
  rewrite calculate_portfolio_metrics_by_day;
    [|exact close_shape|rewrite generate_random_portfolio_weights_length; auto].
  rewrite calculate_returns_and_risk_value. eexists. eexists. reflexivity.
Qed.

(** One iteration appends one weight vector, its return and its risk. *)
Lemma simulate_step_spec (st : loop_state RandomState) :
  exists r k,
    calculate_portfolio_metrics (draw 0 (random_state _ st)) (portfolio_close self)
      = Ok (r, k) /\
    simulate_step RandomState dirichlet self st =
      Ok {| return_vector := return_vector _ st ++ [r];
            risk_vector := risk_vector _ st ++ [k];
            weight_vector := weight_vector _ st ++ [draw 0 (random_state _ st)];
            random_state := state_after RandomState dirichlet n_assets 1
                                        (random_state _ st) |}.
Proof.
  destruct (drawn_weights_evaluate (random_state _ st)) as (r & k & Hrk).
  exists r, k. split; [exact Hrk|].
  unfold simulate_step, draw. simpl. fold n_assets.
  destruct (generate_random_portfolio_weights RandomState dirichlet n_assets
              (random_state _ st)) as [w g'] eqn:Hgen.
  simpl in *. rewrite Hrk. reflexivity.
Qed.

(** [n] iterations append [n] entries to each of the three lists, entry
    [i] coming from draw [i]. *)
Lemma simulate_loop_spec (n : nat) :
  forall st : loop_state RandomState,
  exists st' rs ks ws,
    simulate_loop RandomState dirichlet self n st = Ok st' /\
    random_state _ st' =
      state_after RandomState dirichlet n_assets n (random_state _ st) /\
    return_vector _ st' = return_vector _ st ++ rs /\
    risk_vector _ st' = risk_vector _ st ++ ks /\
    weight_vector _ st' = weight_vector _ st ++ ws /\
    length rs = n /\ length ks = n /\ length ws = n /\
    forall i, (i < n)%nat ->
      exists r k,
        nth_error rs i = Some r /\ nth_error ks i = Some k /\
        nth_error ws i = Some (draw i (random_state _ st)) /\
        calculate_portfolio_metrics (draw i (random_state _ st)) (portfolio_close self)
          = Ok (r, k).
Proof.
  induction n as [|n IH]; intros st.
  - exists st, [], [], []. simpl. rewrite !app_nil_r.
    repeat split; auto. intros i Hi. lia.
  - destruct (simulate_step_spec st) as (r & k & Hrk & Hstep).
    simpl. rewrite Hstep. simpl.
    match goal with |- context [simulate_loop _ _ _ n ?s] => set (st1 := s) end.
    destruct (IH st1) as (st' & rs & ks & ws & Hloop & Hg & Hr & Hk & Hw & Lr & Lk & Lw & Hi).
    exists st', (r :: rs), (k :: ks), (draw 0 (random_state _ st) :: ws).
    subst st1. simpl in *.
    rewrite Hloop, Hg, Hr, Hk, Hw, <- !app_assoc. simpl.
    repeat split; auto.
    intros [|i] Hlt.
    + exists r, k. repeat split; auto.
    + destruct (Hi i) as (r' & k' & H1 & H2 & H3 & H4); [lia|].
      exists r', k'. repeat split; auto.
Qed.

(** C7: for a scenario count [K >= 1], [simulate_portfolios] returns a
    population of [K + 1] returns, [K + 1] risks and [K] weight vectors;
    position 0 of the returns and risks is the benchmark, which has no
    weights; for [i < K], position [i] of the weights is the [i]-th draw
    of the sampler and position [i + 1] of the returns and risks is what
    [calculate_portfolio_metrics] returns for it. *)
Theorem simulate_portfolios_population (g : RandomState) :
  (1 <= number_of_scenarios (config self))%Z ->
  exists self' g',
    simulate_portfolios RandomState dirichlet self g = Ok (self', g') /\
    let K := Z.to_nat (number_of_scenarios (config self)) in
    let s := portfolio_scenarios self' in
    g' = state_after RandomState dirichlet n_assets K g /\
    length (returns s) = S K /\
    length (risks s) = S K /\
    length (weights s) = K /\
    nth_error (returns s) 0 = Some (benchmark_return self) /\
    nth_error (risks s) 0 = Some (benchmark_risk self) /\
    forall i, (i < K)%nat ->
      exists r k,
        nth_error (weights s) i = Some (draw i g) /\
        calculate_portfolio_metrics (draw i g) (portfolio_close self) = Ok (r, k) /\
        nth_error (returns s) (S i) = Some r /\
        nth_error (risks s) (S i) = Some k.
Proof.
  intros _. unfold simulate_portfolios.
  match goal with |- context [simulate_loop _ _ _ _ ?s] => set (st0 := s) end.
  destruct (simulate_loop_spec (Z.to_nat (number_of_scenarios (config self))) st0)
    as (st' & rs & ks & ws & Hloop & Hg & Hr & Hk & Hw & Lr & Lk & Lw & Hi).
  rewrite Hloop. simpl. eexists. eexists. split; [reflexivity|].
  simpl in *. rewrite Hr, Hk, Hw. simpl.
  repeat split; auto.
  intros i Hlt. destruct (Hi i Hlt) as (r & k & H1 & H2 & H3 & H4).
  exists r, k. repeat split; auto.
Qed.

End SimulationFacts.

Lemma simulate_portfolios_population_witness :
  exists self' g',
    simulate_portfolios nat equal_weights example_optimizer 0%nat = Ok (self', g') /\
    length (returns (portfolio_scenarios self')) = 4%nat /\
    length (weights (portfolio_scenarios self')) = 3%nat.
Proof.
  assert (Hshape : well_shaped (portfolio_close example_optimizer))
    by (split; [reflexivity | repeat constructor]).
  destruct (simulate_portfolios_population nat equal_weights
              (fun alpha g => length_map _ alpha)
              example_optimizer Hshape eq_refl 0%nat)
    as (self' & g' & Hrun & _ & Hr & _ & Hw & _).
  - simpl. lia.
  - exists self', g'. repeat split; assumption.
Defined.

(** The population of the example: the benchmark first, then the three
    evaluated draws. *)
Example simulate_portfolios_example :
  exists self' g',
    simulate_portfolios nat equal_weights example_optimizer 0%nat = Ok (self', g') /\
    g' = 3%nat /\
    weights (portfolio_scenarios self') = [[0.5; 0.5]; [0.5; 0.5]; [0.5; 0.5]] /\
    hd_error (returns (portfolio_scenarios self')) = Some 0.001.
Proof. eexists. eexists. vm_compute. repeat split. Qed.

(* ================================================================= *)
(** * Arithmetic facts about binary64 *)

Module Float64Arith.

Lemma digits2_pos_bound (p : positive) (n : Z) :
  (0 <= n)%Z -> (Zpos p < 2 ^ n)%Z -> (Zpos (digits2_pos p) <= n)%Z.
Proof.
  revert n. induction p as [p IH|p IH|]; intros n Hn Hp; simpl.
  - assert (n <> 0)%Z by (intros ->; simpl in Hp; lia).
    replace n with (Z.succ (n - 1))%Z in Hp by lia.
    rewrite Z.pow_succ_r in Hp by lia.
    specialize (IH (n - 1)%Z). lia.
  - assert (n <> 0)%Z by (intros ->; simpl in Hp; lia).
    replace n with (Z.succ (n - 1))%Z in Hp by lia.
    rewrite Z.pow_succ_r in Hp by lia.
    specialize (IH (n - 1)%Z). lia.
  - assert (n <> 0)%Z by (intros ->; simpl in Hp; lia). lia.
Qed.

Lemma digits2_pos_iter_xO (p k : positive) :
  Zpos (digits2_pos (Pos.iter xO p k)) = (Zpos (digits2_pos p) + Zpos k)%Z.
Proof.
  induction k as [|k IH] using Pos.peano_ind.
  - simpl. lia.
  - rewrite Pos.iter_succ. simpl. lia.
Qed.

(** A canonical mantissa is left untouched by rounding. *)
Lemma binary_round_aux_canonical (s : bool) (m : positive) (e : Z) :
  canonical_mantissa prec emax m e = true -> (e <= emax - prec)%Z ->
  binary_round_aux prec emax s (Zpos m) e loc_Exact = S754_finite s m e.
Proof.
  intros Hc He. unfold canonical_mantissa in Hc. apply Z.eqb_eq in Hc.
  unfold binary_round_aux, shr_fexp. simpl Zdigits2. rewrite Hc, Z.sub_diag.
  cbn [shr shr_record_of_loc round_nearest_even shr_m loc_of_shr_record Zdigits2].
  rewrite Hc, Z.sub_diag.
  cbn [shr shr_record_of_loc shr_m].
  apply Z.leb_le in He. rewrite He. reflexivity.
Qed.

Lemma of_Z_small (z : Z) :
  (0 < z < 2 ^ 53)%Z ->
  exists m e, Prim2SF (Float64.of_Z z) = S754_finite false m e.
Proof.
  intros [Hpos Hlt]. destruct z as [|p|p]; try lia.
  pose proof (digits2_pos_bound p 53 ltac:(lia) Hlt) as Hd.
  unfold Float64.of_Z. simpl binary_normalize. unfold binary_round.
  assert (Hfexp : fexp prec emax (Zpos (digits2_pos p) + 0) = (Zpos (digits2_pos p) - 53)%Z).
  { unfold fexp, SpecFloat.emin, prec, emax. lia. }
  rewrite Hfexp. unfold shl_align.
  destruct (Zpos (digits2_pos p) - 53 - 0)%Z as [|k|k] eqn:Hk; try lia.
  - assert (Hc : canonical_mantissa prec emax p 0 = true).
    { unfold canonical_mantissa. rewrite Hfexp. apply Z.eqb_eq. lia. }
    rewrite binary_round_aux_canonical by (auto; unfold prec, emax; lia).
    exists p, 0%Z. apply Prim2SF_SF2Prim. simpl. unfold bounded. rewrite Hc. reflexivity.
  - set (mz := Pos.iter xO p k). set (ez := (Zpos (digits2_pos p) - 53)%Z).
    assert (Hc : canonical_mantissa prec emax mz ez = true).
    { unfold canonical_mantissa, mz, ez. rewrite digits2_pos_iter_xO.
      apply Z.eqb_eq. unfold fexp, SpecFloat.emin, prec, emax. lia. }
    assert (He : (ez <= emax - prec)%Z) by (unfold ez, prec, emax; lia).
    rewrite binary_round_aux_canonical by auto.
    exists mz, ez. apply Prim2SF_SF2Prim. simpl. unfold bounded. rewrite Hc.
    apply Z.leb_le in He. rewrite He. reflexivity.
Qed.

(** A float strictly between zero and infinity decodes to a positive
    finite number. *)
Lemma positive_finite_decoded (c : float) :
  (0 <? c) = true -> (c <? infinity) = true ->
  exists m e, Prim2SF c = S754_finite false m e.
Proof.
  rewrite !ltb_spec. change (Prim2SF 0) with (S754_zero false).
  change (Prim2SF infinity) with (S754_infinity false).
  destruct (Prim2SF c) as [s|s| |s m e]; simpl; try discriminate.
  - destruct s; discriminate.
  - destruct s; try discriminate. eauto.
Qed.

Lemma sub_diag (c : float) (s : bool) (m : positive) (e : Z) :
  Prim2SF c = S754_finite s m e -> c - c = 0.
Proof.
  intros H. apply Prim2SF_inj. rewrite sub_spec, H.
  unfold SF64sub, SFsub. rewrite Z.min_id. unfold shl_align.
  rewrite (Z.sub_diag e). cbn [fst]. rewrite Z.sub_diag. reflexivity.
Qed.

Lemma zero_div_positive (c : float) (m : positive) (e : Z) :
  Prim2SF c = S754_finite false m e -> 0 / c = 0.
Proof.
  intros H. apply Prim2SF_inj. rewrite div_spec, H. reflexivity.
Qed.

(** Python converts every positive integer below [2^53]. *)
Lemma of_int_small (z : Z) :
  (0 < z < 2 ^ 53)%Z -> Float64.of_int z = Ok (Float64.of_Z z).
Proof.
  intros Hz. destruct (of_Z_small z Hz) as (m & e & Hf).
  unfold Float64.of_int.
  replace (is_infinity (Float64.of_Z z)) with false; [reflexivity|].
  unfold is_infinity. rewrite FloatAxioms.eqb_spec, abs_spec, Hf. reflexivity.
Qed.

(** The conversion has two outcomes. *)
Lemma of_int_cases (z : Z) :
  Float64.of_int z = Ok (Float64.of_Z z) \/
  Float64.of_int z = Raise OverflowError.
Proof.
  unfold Float64.of_int. destruct (is_infinity (Float64.of_Z z)); auto.
Qed.

Lemma of_int_value (z : Z) (fd : float) :
  Float64.of_int z = Ok fd -> fd = Float64.of_Z z.
Proof.
  unfold Float64.of_int. destruct (is_infinity (Float64.of_Z z)); congruence.
Qed.

End Float64Arith.

(* ================================================================= *)
(** * The annualizer *)

(** With a day count that converts, the pair of products. *)
Lemma annualize_metrics_converted (r s : float) (d : Z) (fd : float) :
  Float64.of_int d = Ok fd ->
  annualize_metrics r s d = Ok (r * fd, s * fd).
Proof.
  intros H. unfold annualize_metrics, Float64.mul_int. rewrite H. reflexivity.
Qed.

(** With one that does not, the first product raises. *)
Lemma annualize_metrics_overflow (r s : float) (d : Z) :
  Float64.of_int d = Raise OverflowError ->
  annualize_metrics r s d = Raise OverflowError.
Proof.
  intros H. unfold annualize_metrics, Float64.mul_int. rewrite H. reflexivity.
Qed.

(** No other exception leaves the annualizer. *)
Lemma annualize_metrics_raises (r s : float) (d : Z) (e : exn) :
  annualize_metrics r s d = Raise e ->
  e = OverflowError /\ Float64.of_int d = Raise OverflowError.
Proof.
  intros H. destruct (Float64Arith.of_int_cases d) as [Hd|Hd].
  - rewrite (annualize_metrics_converted r s d _ Hd) in H. discriminate.
  - rewrite (annualize_metrics_overflow r s d Hd) in H.
    injection H as <-. auto.
Qed.

(** C8, as stated, fails: Python converts the day count to a float before
    it multiplies, and the conversion of [10^400] raises [OverflowError]:
    nothing is returned. *)
Lemma annualize_metrics_huge_day_count : ~ linear_and_exact.
Proof.
  intros H.
  specialize (H 0.001 0.02 (10 ^ 400)%Z eq_refl eq_refl eq_refl).
  vm_compute in H. discriminate.
Qed.

(** C8, amended: for every day count [d] that Python converts to a float
    (every [0 < d < 2^53] among them), [annualize_metrics r s d] returns
    [(r * d, s * d)]: [d] is converted to the nearest binary64 number and
    each component is the single correctly rounded product with it, with no
    compounding; nothing is clamped, opposite daily values giving opposite
    annual values.  For a day count whose conversion overflows
    ([2^1024 - 2^970] and [10^400] do, [2^1024 - 2^970 - 1] does not)
    the call raises [OverflowError]. *)
Theorem annualize_metrics_scaling (r s : float) (d : Z) :
  ((0 < d < 2 ^ 53)%Z -> Float64.of_int d = Ok (Float64.of_Z d)) /\
  (forall fd, Float64.of_int d = Ok fd ->
     fd = Float64.of_Z d /\
     annualize_metrics r s d = Ok (r * fd, s * fd) /\
     Prim2SF (r * fd) = SF64mul (Prim2SF r) (Prim2SF fd) /\
     Prim2SF (s * fd) = SF64mul (Prim2SF s) (Prim2SF fd) /\
     annualize_metrics (- r) (- s) d = Ok (- (r * fd), - (s * fd))) /\
  (Float64.of_int d = Raise OverflowError ->
   annualize_metrics r s d = Raise OverflowError) /\
  (Float64.of_int d = Ok (Float64.of_Z d) \/
   Float64.of_int d = Raise OverflowError) /\
  Float64.of_int (2 ^ 1024 - 2 ^ 970 - 1) = Ok 0x1.fffffffffffffp+1023 /\
  Float64.of_int (2 ^ 1024 - 2 ^ 970) = Raise OverflowError /\
  Float64.of_int (10 ^ 400) = Raise OverflowError.
Proof.
  split; [apply Float64Arith.of_int_small|].
  split; [|split; [apply annualize_metrics_overflow|
           split; [apply Float64Arith.of_int_cases|
                   repeat split; vm_compute; reflexivity]]].
  intros fd Hfd.
  split; [exact (Float64Arith.of_int_value d fd Hfd)|].
  split; [exact (annualize_metrics_converted r s d fd Hfd)|].
  split; [apply mul_spec|]. split; [apply mul_spec|].
  rewrite (annualize_metrics_converted (- r) (- s) d fd Hfd).
  rewrite !Float64Facts.mul_opp_l. reflexivity.
Qed.

Lemma annualize_metrics_scaling_witness :
  (0 < 250 < 2 ^ 53)%Z /\
  annualize_metrics 0.001 0.02 250 = Ok (0.25, 5).
Proof.
  assert (Hd : (0 < 250 < 2 ^ 53)%Z) by lia.
  split; [exact Hd|].
  exact (proj1 (proj2 (proj1 (proj2 (annualize_metrics_scaling 0.001 0.02 250))
                         _ (proj1 (annualize_metrics_scaling 0.001 0.02 250) Hd)))).
Defined.

(** The values of [test_annualize_metrics_custom_trade_days] and of
    [test_annualize_metrics]. *)
Example annualize_metrics_250 :
  annualize_metrics 0.001 0.02 250 = Ok (0.25, 5) /\
  annualize_metrics 0.001 0.02 252 = Ok (0.252, 5.04).
Proof. split; vm_compute; reflexivity. Qed.

(* ================================================================= *)
(** * More on the estimator *)

Lemma sum_zeros (k : nat) : np.sum (repeat 0 k) = 0.
Proof.
  unfold np.sum. induction k as [|k IH]; simpl; [reflexivity|].
  change (0 + 0) with 0. exact IH.
Qed.

Lemma zero_div_count (k : nat) :
  (1 <= k)%nat -> (Z.of_nat k < 2 ^ 53)%Z -> 0 / Float64.of_nat k = 0.
Proof.
  intros H1 H2. destruct (Float64Arith.of_Z_small (Z.of_nat k)) as (m & e & H); [lia|].
  eapply Float64Arith.zero_div_positive. exact H.
Qed.

Lemma later_price_returns_constant (c : float) (n : nat) :
  (0 <? c) = true -> (c <? infinity) = true ->
  later_price_returns (repeat c n) = repeat 0 (n - 1).
Proof.
  intros Hpos Hfin.
  destruct (Float64Arith.positive_finite_decoded c Hpos Hfin) as (m & e & Hc).
  unfold later_price_returns. rewrite repeat_length.
  transitivity (map (fun _ : nat => 0) (seq 0 (n - 1)));
    [|rewrite map_const, length_seq; reflexivity].
  apply map_ext_in. intros i Hi. apply in_seq in Hi.
  rewrite !(nth_indep _ 0 c) by (rewrite repeat_length; lia).
  rewrite !nth_repeat.
  rewrite (Float64Arith.sub_diag c false m e Hc).
  eapply Float64Arith.zero_div_positive, Hc.
Qed.

(** X1: a constant series.  For a series of at least two (and at most
    2^53) prices all equal to one positive finite value, the estimator
    returns the return 0 and the risk 0 exactly. *)
Theorem calculate_returns_and_risk_constant (c : float) (prices : list float) :
  (0 <? c) = true -> (c <? infinity) = true ->
  Forall (fun x => x = c) prices ->
  (2 <= length prices)%nat -> (Z.of_nat (length prices) <= 2 ^ 53)%Z ->
  calculate_returns_and_risk prices = Ok (0, 0).
Proof.
  intros Hpos Hfin Hall Hlen Hbig.
  assert (Hp : prices = repeat c (length prices)).
  { apply Forall_eq_repeat. eapply Forall_impl; [|exact Hall]. simpl. auto. }
  rewrite calculate_returns_and_risk_value, Hp.
  rewrite later_price_returns_constant by assumption.
  set (k := (length prices - 1)%nat).
  assert (Hk : 0 / Float64.of_nat k = 0) by (apply zero_div_count; unfold k; lia).
  unfold np.average, np.std. rewrite repeat_length, sum_zeros, Hk.
  rewrite !map_repeat. change (0 - 0) with 0. change (0 * 0) with 0.
  rewrite sum_zeros, Hk. reflexivity.
Qed.

Lemma calculate_returns_and_risk_constant_witness :
  calculate_returns_and_risk constant_prices = Ok (0, 0).
Proof.
  apply (calculate_returns_and_risk_constant 100 constant_prices).
  - reflexivity.
  - reflexivity.
  - repeat constructor.
  - simpl. lia.
  - simpl. lia.
Defined.

(* ================================================================= *)
(** * More on the optimal selector *)

(** The positions [np.where] returns are those of the candidates, in
    order: position [k] of the index array and of the candidate array
    belong together, and every candidate stored before it in the record
    array comes before it in the candidate array as well. *)
Lemma where_from_positions {A : Type} (f : A -> bool) (l : list A) :
  forall (off k i : nat),
    nth_error (np.where_from off (map f l)) k = Some i ->
    (off <= i)%nat /\
    exists r,
      nth_error l (i - off) = Some r /\ f r = true /\
      nth_error (filter f l) k = Some r /\
      forall j r', (off <= j < i)%nat -> nth_error l (j - off) = Some r' -> f r' = true ->
        exists k', (k' < k)%nat /\ nth_error (filter f l) k' = Some r'.
Proof.
  induction l as [|x l IH]; intros off k i H; simpl in H.
  - destruct k; discriminate.
  - destruct (f x) eqn:Hx.
    + destruct k as [|k]; simpl in H.
      * injection H as <-. split; [lia|]. exists x. rewrite Nat.sub_diag. simpl. rewrite Hx.
        repeat split; auto. intros j r' Hj. lia.
      * destruct (IH (S off) k i H) as (Hle & r & Hr & Hfr & Hk & Hbefore).
        split; [lia|]. exists r.
        replace (i - off)%nat with (S (i - S off)) by lia. simpl. rewrite Hx.
        repeat split; auto.
        intros j r' Hj Hr' Hfr'.
        destruct (Nat.eq_dec j off) as [->|Hne].
        -- rewrite Nat.sub_diag in Hr'. simpl in Hr'. injection Hr' as <-.
           exists 0%nat. split; [lia|reflexivity].
        -- replace (j - off)%nat with (S (j - S off)) in Hr' by lia. simpl in Hr'.
           destruct (Hbefore j r') as (k' & Hk' & Hn); auto; [lia|].
           exists (S k'). split; [lia|exact Hn].
    + destruct (IH (S off) k i H) as (Hle & r & Hr & Hfr & Hk & Hbefore).
      split; [lia|]. exists r.
      replace (i - off)%nat with (S (i - S off)) by lia. simpl. rewrite Hx.
      repeat split; auto.
      intros j r' Hj Hr' Hfr'.
      destruct (Nat.eq_dec j off) as [->|Hne].
      -- rewrite Nat.sub_diag in Hr'. simpl in Hr'. injection Hr' as <-. congruence.
      -- replace (j - off)%nat with (S (j - S off)) in Hr' by lia. simpl in Hr'.
         destruct (Hbefore j r') as (k' & Hk' & Hn); auto; [lia|].
         exists k'. split; auto.
Qed.

(** Away from NaN, every element before the position [np.argmax] settles
    on is strictly smaller than the maximum: the first occurrence wins. *)
Lemma argmax_scan_first (ip pre : list float) (mp : float) (max_ind : nat) :
  nth_error pre max_ind = Some mp ->
  is_nan mp = false ->
  Forall (fun x => is_nan x = false) ip ->
  (forall j y, (j < max_ind)%nat -> nth_error pre j = Some y -> (mp <=? y) = false) ->
  Forall (fun y => (y <=? mp) = true) pre ->
  exists v,
    nth_error (pre ++ ip) (np.argmax_scan mp max_ind (length pre) ip) = Some v /\
    forall j y, (j < np.argmax_scan mp max_ind (length pre) ip)%nat ->
      nth_error (pre ++ ip) j = Some y -> (v <=? y) = false.
Proof.
  revert pre mp max_ind.
  induction ip as [|x ip IH]; intros pre mp max_ind Hmp Hnan Hall Hbefore Hle.
  - exists mp. simpl. rewrite app_nil_r. split; auto.
  - inversion Hall as [|? ? Hx Hip]; subst. simpl. rewrite Hnan.
    destruct (x <=? mp) eqn:Hxmp; simpl.
    + destruct (IH (pre ++ [x]) mp max_ind) as (v & Hv & Hfirst); auto.
      * rewrite nth_error_app1; [exact Hmp|]. apply nth_error_Some. congruence.
      * intros j y Hj Hy. apply (Hbefore j y Hj).
        rewrite nth_error_app1 in Hy; [exact Hy|].
        assert (max_ind < length pre)%nat by (apply nth_error_Some; congruence). lia.
      * apply Forall_app. split; auto.
      * rewrite length_app, Nat.add_1_r, <- app_assoc in Hv, Hfirst. simpl in Hv, Hfirst.
        exists v. split; auto.
    + destruct (IH (pre ++ [x]) x (length pre)) as (v & Hv & Hfirst); auto.
      * rewrite nth_error_app2, Nat.sub_diag by lia. reflexivity.
      * intros j y Hj Hy. rewrite nth_error_app1 in Hy by exact Hj.
        apply nth_error_In in Hy. rewrite Forall_forall in Hle.
        destruct (x <=? y) eqn:Hxy; [|reflexivity].
        rewrite (Float64Facts.leb_trans x y mp Hxy (Hle y Hy)) in Hxmp. discriminate.
      * apply Forall_app. split.
        -- eapply Forall_impl; [|exact Hle]. simpl. intros y Hy.
           eapply Float64Facts.leb_trans; [exact Hy|].
           apply Float64Facts.leb_total; auto.
        -- constructor; [|constructor]. apply Float64Facts.leb_refl, Hx.
      * rewrite length_app, Nat.add_1_r, <- app_assoc in Hv, Hfirst. simpl in Hv, Hfirst.
        exists v. split; auto.
Qed.

Lemma argmax_first (a : list float) (k : nat) :
  Forall (fun x => is_nan x = false) a ->
  np.argmax a = Ok k ->
  exists v, nth_error a k = Some v /\
    forall j y, (j < k)%nat -> nth_error a j = Some y -> (v <=? y) = false.
Proof.
  destruct a as [|x a]; simpl; intros Hall H; [discriminate|].
  injection H as <-. inversion Hall as [|? ? Hx Ha]; subst.
  destruct (argmax_scan_first a [x] x 0 eq_refl Hx Ha) as (v & Hv & Hfirst).
  - intros j y Hj. lia.
  - constructor; [|constructor]. apply Float64Facts.leb_refl, Hx.
  - exists v. split; auto.
Qed.

(** What a successful scan over the positions of a predicate returns. *)
Lemma select_among_where (cand : float * float -> bool) (pa : list (float * float))
  (best : float * float) (idx : nat) :
  select_among pa (np.where_0 (map cand pa)) = Ok (best, idx) ->
  nth_error pa idx = Some best /\
  cand best = true /\
  (Forall (fun r => is_nan (fst r) = false) pa ->
   forall j r, (j < idx)%nat -> nth_error pa j = Some r -> cand r = true ->
     (fst best <=? fst r) = false).
Proof.
  intros H. pose proof (select_among_index _ _ _ _ H) as Hstored.
  unfold select_among in H. rewrite npFacts.take_where_0 in H. simpl in H.
  destruct (np.argmax (column0 (filter cand pa))) as [k|e] eqn:Hk; simpl in H; [|discriminate].
  unfold np.item in H.
  destruct (nth_error (np.where_0 (map cand pa)) k) as [i|] eqn:Hi; simpl in H; [|discriminate].
  destruct (nth_error (filter cand pa) k) as [b|] eqn:Hb; simpl in H; [|discriminate].
  injection H as <- <-.
  destruct (where_from_positions cand pa 0 k i Hi) as (_ & r & Hr & Hfr & Hkr & Hbefore).
  rewrite Hb in Hkr. injection Hkr as <-.
  split; [exact Hstored|]. split; [exact Hfr|].
  intros Hnan j r' Hj Hr' Hcand.
  destruct (Hbefore j r') as (k' & Hk' & Hn); auto; [lia|rewrite Nat.sub_0_r; exact Hr'|].
  assert (Hall : Forall (fun x => is_nan x = false) (column0 (filter cand pa))).
  { apply Forall_forall. intros x Hx. unfold column0 in Hx.
    apply in_map_iff in Hx. destruct Hx as (r0 & <- & Hr0).
    apply filter_In in Hr0. rewrite Forall_forall in Hnan. apply Hnan. tauto. }
  destruct (argmax_first _ _ Hall Hk) as (v & Hv & Hfirst).
  unfold column0 in Hv. rewrite nth_error_map, Hb in Hv. simpl in Hv. injection Hv as <-.
  apply (Hfirst k' (fst r') Hk').
  unfold column0. rewrite nth_error_map, Hn. reflexivity.
Qed.

(** X4: the risk of the selected record.  A record returned by
    [find_optimal_portfolio] is within [max_risk] when more than one
    record is; otherwise its risk equals [min_risk], whether or not that
    is within [max_risk]. *)
Theorem find_optimal_portfolio_risk
  (pa : list (float * float)) (max_risk min_risk : float)
  (best : float * float) (idx : nat) :
  find_optimal_portfolio pa max_risk min_risk = Ok (best, idx) ->
  ((1 < length (filter (acceptable max_risk) pa))%nat /\ (snd best <=? max_risk) = true) \/
  ((length (filter (acceptable max_risk) pa) <= 1)%nat /\ (snd best =? min_risk) = true).
Proof.
  rewrite find_optimal_portfolio_branches.
  destruct (1 <? length (filter (acceptable max_risk) pa))%nat eqn:Hcount; intros H;
    apply select_among_where in H; destruct H as (_ & Hc & _).
  - left. apply Nat.ltb_lt in Hcount. auto.
  - right. apply Nat.ltb_ge in Hcount. auto.
Qed.

Lemma find_optimal_portfolio_risk_witness :
  (length (filter (acceptable 0.035) test_portfolio_array) <= 1)%nat /\
  (0.04 =? 0.04) = true.
Proof.
  assert (E : find_optimal_portfolio test_portfolio_array 0.035 0.04
              = Ok ((0.06, 0.04), 3%nat)) by (vm_compute; reflexivity).
  destruct (find_optimal_portfolio_risk test_portfolio_array 0.035 0.04 (0.06, 0.04) 3 E)
    as [[H _]|H].
  - vm_compute in H. lia.
  - exact H.
Defined.

(** X5: the tie-break.  Among candidates of equal return the one stored
    first is returned: with no NaN return, every candidate stored before
    the returned position has a strictly smaller return. *)
Theorem find_optimal_portfolio_first_occurrence
  (pa : list (float * float)) (max_risk min_risk : float)
  (best : float * float) (idx : nat) :
  Forall (fun r => is_nan (fst r) = false) pa ->
  find_optimal_portfolio pa max_risk min_risk = Ok (best, idx) ->
  forall j r, (j < idx)%nat -> nth_error pa j = Some r ->
    (if (1 <? length (filter (acceptable max_risk) pa))%nat
     then acceptable max_risk r else at_min_risk min_risk r) = true ->
    (fst best <=? fst r) = false /\ (fst r <=? fst best) = true.
Proof.
  intros Hnan H j r Hj Hr Hcand.
  rewrite find_optimal_portfolio_branches in H.
  assert (Hlt : (fst best <=? fst r) = false).
  { destruct (1 <? length (filter (acceptable max_risk) pa))%nat;
      apply select_among_where in H; destruct H as (_ & _ & Hfirst);
      eapply Hfirst; eauto. }
  split; [exact Hlt|].
  rewrite Forall_forall in Hnan.
  apply Float64Facts.leb_total; auto.
  - apply Hnan. destruct (1 <? _)%nat; apply select_among_index in H;
      eapply nth_error_In; eauto.
  - apply Hnan. eapply nth_error_In; eauto.
Qed.
Lemma find_optimal_portfolio_first_occurrence_witness :
  (0.12 <=? 0.1) = false /\ (0.1 <=? 0.12) = true.
Proof.
  apply (find_optimal_portfolio_first_occurrence tie_portfolio_array 0.06 0.03
           (0.12, 0.04) 1) with (j := 0%nat) (r := (0.1, 0.05)).
  - repeat constructor.
  - vm_compute. reflexivity.
  - apply (Nat.lt_0_succ 0).
  - reflexivity.
  - vm_compute. reflexivity.
Defined.

(* ================================================================= *)
(** * Reductions *)

(** Away from NaN, the minimum reduction returns a lower bound. *)
Lemma fold_minimum_lower (a : list float) (x : float) :
  is_nan x = false -> Forall (fun y => is_nan y = false) a ->
  (fold_left np.minimum a x <=? x) = true /\
  Forall (fun y => (fold_left np.minimum a x <=? y) = true) a.
Proof.
  revert x. induction a as [|y a IH]; intros x Hx Ha; simpl.
  - split; [apply Float64Facts.leb_refl, Hx|constructor].
  - inversion Ha as [|? ? Hy Ha']; subst.
    unfold np.minimum at 2 4. rewrite Hx, orb_false_r.
    destruct (x <=? y) eqn:Hxy.
    + destruct (IH x Hx Ha') as [Hm Hall]. split; [exact Hm|].
      constructor; [|exact Hall]. eapply Float64Facts.leb_trans; eauto.
    + destruct (IH y Hy Ha') as [Hm Hall]. split.
      * eapply Float64Facts.leb_trans; [exact Hm|].
        apply Float64Facts.leb_total; auto.
      * constructor; auto.
Qed.

Lemma fold_maximum_upper (a : list float) (x : float) :
  is_nan x = false -> Forall (fun y => is_nan y = false) a ->
  (x <=? fold_left np_maximum a x) = true /\
  Forall (fun y => (y <=? fold_left np_maximum a x) = true) a.
Proof.
  revert x. induction a as [|y a IH]; intros x Hx Ha; simpl.
  - split; [apply Float64Facts.leb_refl, Hx|constructor].
  - inversion Ha as [|? ? Hy Ha']; subst.
    unfold np_maximum at 2 4. rewrite Hx, orb_false_r.
    destruct (y <=? x) eqn:Hxy.
    + destruct (IH x Hx Ha') as [Hm Hall]. split; [exact Hm|].
      constructor; [|exact Hall]. eapply Float64Facts.leb_trans; eauto.
    + destruct (IH y Hy Ha') as [Hm Hall]. split.
      * eapply Float64Facts.leb_trans; [|exact Hm].
        apply Float64Facts.leb_total; auto.
      * constructor; auto.
Qed.

Lemma amin_lower (a : list float) (m : float) :
  Forall (fun y => is_nan y = false) a -> np.amin a = Ok m ->
  Forall (fun y => (m <=? y) = true) a.
Proof.
  destruct a as [|x a]; simpl; intros Ha H; [discriminate|].
  injection H as <-. inversion Ha as [|? ? Hx Ha']; subst.
  destruct (fold_minimum_lower a x Hx Ha') as [Hm Hall]. constructor; auto.
Qed.

Lemma amax_upper (a : list float) (m : float) :
  Forall (fun y => is_nan y = false) a -> np_amax a = Ok m ->
  Forall (fun y => (y <=? m) = true) a.
Proof.
  destruct a as [|x a]; simpl; intros Ha H; [discriminate|].
  injection H as <-. inversion Ha as [|? ? Hx Ha']; subst.
  destruct (fold_maximum_upper a x Hx Ha') as [Hm Hall]. constructor; auto.
Qed.

(* ================================================================= *)
(** * More on the evaluator and on [optimize_portfolio] *)

Lemma calculate_portfolio_metrics_ok (w : list float) (A : ndarray2) :
  length w = ncols A -> exists m, calculate_portfolio_metrics w A = Ok m.
Proof.
  intros H. rewrite calculate_portfolio_metrics_unfold. unfold np.matmul. simpl.
  rewrite H, Nat.eqb_refl. simpl. rewrite calculate_returns_and_risk_value.
  eexists. reflexivity.
Qed.

(** X2: the only exception of [calculate_portfolio_metrics] is the shape
    mismatch: it raises, with a [ValueError], exactly when the number of
    weights differs from the number of columns of [asset_prices]. *)
Theorem calculate_portfolio_metrics_raises_iff (w : list float) (A : ndarray2) :
  ((exists e, calculate_portfolio_metrics w A = Raise e) <-> length w <> ncols A) /\
  (length w <> ncols A -> calculate_portfolio_metrics w A = Raise ValueError) /\
  (length w = ncols A -> exists m, calculate_portfolio_metrics w A = Ok m).
Proof.
  split; [|split; [apply calculate_portfolio_metrics_mismatch
                  |apply calculate_portfolio_metrics_ok]].
  split.
  - intros [e He] Heq. destruct (calculate_portfolio_metrics_ok w A Heq) as [m Hm].
    congruence.
  - intros H. exists ValueError. apply calculate_portfolio_metrics_mismatch, H.
Qed.

Lemma calculate_portfolio_metrics_raises_iff_witness :
  calculate_portfolio_metrics test_weights test_asset_prices = Raise ValueError /\
  exists m, calculate_portfolio_metrics test_weights (portfolio_close example_optimizer)
            = Ok m.
Proof.
  split.
  - apply (calculate_portfolio_metrics_raises_iff test_weights test_asset_prices).
    simpl. lia.
  - apply (calculate_portfolio_metrics_raises_iff test_weights
             (portfolio_close example_optimizer)).
    reflexivity.
Defined.

(** X3: the evaluator on close prices.  For a price array with one row
    per day and one column per asset, and one weight per column,
    [calculate_portfolio_metrics] returns what the estimator returns for
    the series of the days' weighted sums, one price per day. *)
Theorem calculate_portfolio_metrics_close_prices (w : list float) (A : ndarray2) :
  well_shaped A -> length w = ncols A ->
  length (synthetic_prices_by_day w A) = nrows A /\
  calculate_portfolio_metrics w A =
    calculate_returns_and_risk (synthetic_prices_by_day w A) /\
  exists m, calculate_portfolio_metrics w A = Ok m.
Proof.
  intros HA Hw. split; [|split].
  - unfold synthetic_prices_by_day. rewrite length_map. apply HA.
  - apply calculate_portfolio_metrics_by_day; assumption.
  - apply calculate_portfolio_metrics_ok, Hw.
Qed.

Lemma calculate_portfolio_metrics_close_prices_witness :
  calculate_portfolio_metrics test_weights (portfolio_close example_optimizer) =
    calculate_returns_and_risk [150; 157.5; 153; 162].
Proof.
  apply (calculate_portfolio_metrics_close_prices test_weights
           (portfolio_close example_optimizer)).
  - split; [reflexivity|repeat constructor].
  - reflexivity.
Defined.

Lemma nth_error_combine (a b : list float) (i : nat) (r k : float) :
  nth_error (combine a b) i = Some (r, k) ->
  nth_error a i = Some r /\ nth_error b i = Some k.
Proof.
  revert b i. induction a as [|x a IH]; intros [|y b] [|i]; simpl; intros H;
    try discriminate.
  - injection H as <- <-. auto.
  - apply IH, H.
Qed.

(** What a successful [optimize_portfolio] has computed. *)
Lemma optimize_portfolio_inv (self self' : PortfolioOptimizer) :
  optimize_portfolio self = Ok self' ->
  exists min_risk idx r k w,
    let max_risk := benchmark_risk self * (1 + delta_risk (config self)) in
    np.amin (tl (risks (portfolio_scenarios self))) = Ok min_risk /\
    find_optimal_portfolio
      (combine (tl (returns (portfolio_scenarios self)))
               (tl (risks (portfolio_scenarios self)))) max_risk min_risk
      = Ok ((r, k), idx) /\
    length (tl (returns (portfolio_scenarios self))) =
      length (tl (risks (portfolio_scenarios self))) /\
    nth_error (weights (portfolio_scenarios self)) idx = Some w /\
    self' = set_optimum self (r, k) w (min_risk, max_risk).
Proof.
  unfold optimize_portfolio. intros H.
  unfold np.column_stack in H.
  destruct (_ =? _)%nat eqn:Hlen; simpl in H; [|discriminate].
  destruct (np.amin _) as [m|e]; simpl in H; [|discriminate].
  destruct (find_optimal_portfolio _ _ _) as [[[r k] idx]|e] eqn:Hfind;
    simpl in H; [|discriminate].
  unfold np.item in H.
  destruct (nth_error (weights (portfolio_scenarios self)) idx) as [w|] eqn:Hw;
    simpl in H; [|discriminate].
  injection H as <-. apply Nat.eqb_eq in Hlen.
  exists m, idx, r, k, w. simpl. auto.
Qed.

(** X6: one and the same scenario.  A successful [optimize_portfolio]
    stores the return and the risk at position [idx + 1] of the population
    and the weights at position [idx] of the weight list, for one [idx]:
    the benchmark at position 0 is never the optimum, and the weights are
    those of the scenario whose metrics are stored. *)
Theorem optimize_portfolio_same_scenario (self self' : PortfolioOptimizer) :
  optimize_portfolio self = Ok self' ->
  exists idx r k w,
    (idx < length (weights (portfolio_scenarios self)))%nat /\
    nth_error (returns (portfolio_scenarios self)) (S idx) = Some r /\
    nth_error (risks (portfolio_scenarios self)) (S idx) = Some k /\
    nth_error (weights (portfolio_scenarios self)) idx = Some w /\
    optimal_portfolio self' = Some (r, k) /\
    optimal_weights self' = Some w /\
    config self' = config self /\
    portfolio_scenarios self' = portfolio_scenarios self.
Proof.
  intros H. destruct (optimize_portfolio_inv _ _ H)
    as (m & idx & r & k & w & _ & Hfind & _ & Hw & ->).
  apply find_optimal_portfolio_stored, nth_error_combine in Hfind.
  destruct Hfind as [Hr Hk].
  exists idx, r, k, w. simpl. repeat split; auto.
  - apply nth_error_Some. congruence.
  - destruct (returns (portfolio_scenarios self)); [destruct idx; discriminate|exact Hr].
  - destruct (risks (portfolio_scenarios self)); [destruct idx; discriminate|exact Hk].
Qed.

Lemma optimize_portfolio_same_scenario_witness :
  exists self' idx r k w,
    optimize_portfolio example_population = Ok self' /\
    nth_error (returns (portfolio_scenarios example_population)) (S idx) = Some r /\
    nth_error (weights (portfolio_scenarios example_population)) idx = Some w /\
    optimal_portfolio self' = Some (r, k) /\
    optimal_weights self' = Some w.
Proof.
  destruct (optimize_portfolio example_population) as [self'|e] eqn:H;
    [|vm_compute in H; discriminate].
  destruct (optimize_portfolio_same_scenario example_population self' H)
    as (idx & r & k & w & _ & Hr & _ & Hw & Ho & How & _).
  exists self', idx, r, k, w. repeat split; assumption.
Defined.

(** X7: the risk boundaries.  After a successful [optimize_portfolio],
    [risk_boundaries] holds the minimum of the scenario risks and
    [benchmark_risk * (1 + delta_risk)]; the risk of the optimal portfolio
    is within the upper boundary or equal to the lower one, and (no
    scenario risk being NaN) no scenario has a risk below the lower
    boundary. *)
Theorem optimize_portfolio_boundaries (self self' : PortfolioOptimizer) :
  optimize_portfolio self = Ok self' ->
  exists min_risk max_risk r k,
    risk_boundaries self' = Some (min_risk, max_risk) /\
    optimal_portfolio self' = Some (r, k) /\
    max_risk = benchmark_risk self * (1 + delta_risk (config self)) /\
    In min_risk (tl (risks (portfolio_scenarios self))) /\
    ((k <=? max_risk) = true \/ (k =? min_risk) = true) /\
    (Forall (fun y => is_nan y = false) (tl (risks (portfolio_scenarios self))) ->
     (min_risk <=? k) = true /\
     Forall (fun y => (min_risk <=? y) = true) (tl (risks (portfolio_scenarios self)))).
Proof.
  intros H. destruct (optimize_portfolio_inv _ _ H)
    as (m & idx & r & k & w & Hm & Hfind & Hlen & Hw & ->).
  exists m, (benchmark_risk self * (1 + delta_risk (config self))), r, k.
  simpl. split; [reflexivity|]. split; [reflexivity|]. split; [reflexivity|].
  split; [apply npFacts.amin_In, Hm|]. split.
  - rewrite find_optimal_portfolio_branches in Hfind.
    destruct (1 <? _)%nat; apply select_among_where in Hfind;
      destruct Hfind as (_ & Hc & _); auto.
  - intros Hnan. pose proof (amin_lower _ _ Hnan Hm) as Hall. split; [|exact Hall].
    apply find_optimal_portfolio_stored in Hfind.
    apply nth_error_combine in Hfind. destruct Hfind as [_ Hk].
    rewrite Forall_forall in Hall. apply Hall. eapply nth_error_In, Hk.
Qed.

(** A variant of [optimize_portfolio_succeeds] that asks nothing of the
    benchmark entry. *)
Lemma optimize_portfolio_returns (self : PortfolioOptimizer) (K : nat) :
  (1 <= K)%nat ->
  length (returns (portfolio_scenarios self)) = S K ->
  length (risks (portfolio_scenarios self)) = S K ->
  length (weights (portfolio_scenarios self)) = K ->
  Forall (fun k => is_nan k = false) (tl (risks (portfolio_scenarios self))) ->
  exists self', optimize_portfolio self = Ok self'.
Proof.
  intros HK Hr Hk Hw Hb. unfold optimize_portfolio.
  destruct (returns (portfolio_scenarios self)) as [|r0 a]; [discriminate|].
  destruct (risks (portfolio_scenarios self)) as [|k0 b]; [discriminate|].
  simpl in *. injection Hr as Hr. injection Hk as Hk.
  assert (Hab : length a = length b) by congruence.
  unfold np.column_stack. rewrite Hab, Nat.eqb_refl. simpl.
  destruct (np.amin b) as [m|e] eqn:Hm; [|destruct b; [simpl in *; lia | discriminate]].
  simpl.
  assert (Hpa : Forall (fun r => is_nan (snd r) = false) (combine a b)).
  { apply Forall_forall. intros [x y] Hin. apply in_combine_r in Hin.
    rewrite Forall_forall in Hb. apply Hb, Hin. }
  rewrite <- (column1_combine a b Hab) in Hm.
  destruct (find_optimal_portfolio_returns (combine a b)
              (benchmark_risk self * (1 + delta_risk (config self))) m
              (min_risk_candidates _ _ Hpa Hm)) as (best & idx & Hfind).
  rewrite Hfind. simpl.
  apply find_optimal_portfolio_stored in Hfind.
  assert (Hidx : (idx < length (combine a b))%nat)
    by (apply nth_error_Some; congruence).
  rewrite length_combine in Hidx.
  unfold np.item.
  destruct (nth_error (weights (portfolio_scenarios self)) idx) eqn:Hwi;
    [|apply nth_error_None in Hwi; lia].
  simpl. eexists. reflexivity.
Qed.

Lemma optimize_portfolio_boundaries_witness :
  exists self' min_risk max_risk r k,
    optimize_portfolio example_population = Ok self' /\
    risk_boundaries self' = Some (min_risk, max_risk) /\
    optimal_portfolio self' = Some (r, k) /\
    ((k <=? max_risk) = true \/ (k =? min_risk) = true).
Proof.
  destruct (optimize_portfolio example_population) as [self'|e] eqn:H;
    [|vm_compute in H; discriminate].
  destruct (optimize_portfolio_boundaries example_population self' H)
    as (mn & mx & r & k & Hb & Ho & _ & _ & Hk & _).
  exists self', mn, mx, r, k. repeat split; assumption.
Defined.

(** X8: on a population of [K + 1] returns and risks and [K] weight
    vectors whose scenario risks are not NaN, [optimize_portfolio] succeeds
    exactly when there is a scenario besides the benchmark; with the
    benchmark alone [np.min] raises. *)
Theorem optimize_portfolio_succeeds_iff (self : PortfolioOptimizer) (K : nat) :
  length (returns (portfolio_scenarios self)) = S K ->
  length (risks (portfolio_scenarios self)) = S K ->
  length (weights (portfolio_scenarios self)) = K ->
  Forall (fun k => is_nan k = false) (tl (risks (portfolio_scenarios self))) ->
  ((exists self', optimize_portfolio self = Ok self') <-> (1 <= K)%nat) /\
  (K = 0%nat -> optimize_portfolio self = Raise ValueError).
Proof.
  intros Hr Hk Hw Hnan.
  assert (H0 : K = 0%nat -> optimize_portfolio self = Raise ValueError).
  { intros ->. unfold optimize_portfolio.
    destruct (returns (portfolio_scenarios self)) as [|r0 [|? ?]]; try discriminate.
    destruct (risks (portfolio_scenarios self)) as [|k0 [|? ?]]; try discriminate.
    reflexivity. }
  split; [|exact H0]. split.
  - intros [self' H]. destruct K; [|lia]. rewrite H0 in H by reflexivity. discriminate.
  - intros HK. eapply optimize_portfolio_returns; eauto.
Qed.

Lemma optimize_portfolio_succeeds_iff_witness :
  exists self', optimize_portfolio example_population = Ok self'.
Proof.
  apply (optimize_portfolio_succeeds_iff example_population 3);
    try reflexivity; try (simpl; lia).
  repeat constructor.
Defined.

(** [find_optimal_portfolio] never fails on an index: its only
    exception is the [ValueError] of an empty candidate array. *)
Lemma find_optimal_portfolio_raises
  (pa : list (float * float)) (max_risk min_risk : float) (e : exn) :
  find_optimal_portfolio pa max_risk min_risk = Raise e -> e = ValueError.
Proof.
  rewrite find_optimal_portfolio_branches.
  assert (H : forall cand, select_among pa (np.where_0 (map cand pa)) = Raise e ->
                           e = ValueError).
  { intros cand H. destruct (filter cand pa) as [|r l] eqn:Hf.
    - rewrite (select_among_none cand pa Hf) in H. congruence.
    - destruct (select_among_some cand pa) as (b & i & Hres & _); [congruence|].
      congruence. }
  destruct (1 <? _)%nat; apply H.
Qed.

Lemma calculate_portfolio_metrics_raises (w : list float) (A : ndarray2) (e : exn) :
  calculate_portfolio_metrics w A = Raise e -> e = ValueError.
Proof.
  intros H. destruct (Nat.eq_dec (length w) (ncols A)) as [Heq|Hne].
  - destruct (calculate_portfolio_metrics_ok w A Heq) as [m Hm]. congruence.
  - rewrite (calculate_portfolio_metrics_mismatch w A Hne) in H. congruence.
Qed.

(* ================================================================= *)
(** * More on the scenario engine, and the optimisation run *)

Section RunFacts.

Variable RandomState : Type.
Variable dirichlet : list float -> RandomState -> list float * RandomState.
Variable self : PortfolioOptimizer.

Let n_assets := length (portfolio_tickers (config self)).
Let draw (i : nat) (g : RandomState) : list float :=
  fst (generate_random_portfolio_weights RandomState dirichlet n_assets
         (state_after RandomState dirichlet n_assets i g)).

(** An iteration succeeds or fails with the evaluation of its draw. *)
Lemma simulate_step_unfold (st : loop_state RandomState) :
  simulate_step RandomState dirichlet self st =
    match calculate_portfolio_metrics (draw 0 (random_state _ st)) (portfolio_close self) with
    | Ok (r, k) =>
        Ok {| return_vector := return_vector _ st ++ [r];
              risk_vector := risk_vector _ st ++ [k];
              weight_vector := weight_vector _ st ++ [draw 0 (random_state _ st)];
              random_state := state_after RandomState dirichlet n_assets 1
                                          (random_state _ st) |}
    | Raise e => Raise e
    end.
Proof.
  unfold simulate_step, draw. simpl. fold n_assets.
  destruct (generate_random_portfolio_weights RandomState dirichlet n_assets
              (random_state _ st)) as [w g'] eqn:Hgen.
  simpl. destruct (calculate_portfolio_metrics w (portfolio_close self)) as [[r k]|e];
    reflexivity.
Qed.

(** What a completed loop has appended. *)
Lemma simulate_loop_inv (n : nat) :
  forall st st' : loop_state RandomState,
    simulate_loop RandomState dirichlet self n st = Ok st' ->
    exists rs ks ws,
      random_state _ st' =
        state_after RandomState dirichlet n_assets n (random_state _ st) /\
      return_vector _ st' = return_vector _ st ++ rs /\
      risk_vector _ st' = risk_vector _ st ++ ks /\
      weight_vector _ st' = weight_vector _ st ++ ws /\
      length rs = n /\ length ks = n /\ length ws = n /\
      forall i, (i < n)%nat ->
        exists r k,
          nth_error rs i = Some r /\ nth_error ks i = Some k /\
          nth_error ws i = Some (draw i (random_state _ st)) /\
          calculate_portfolio_metrics (draw i (random_state _ st)) (portfolio_close self)
            = Ok (r, k).
Proof.
  induction n as [|n IH]; intros st st' H; simpl in H.
  - injection H as <-. exists [], [], []. rewrite !app_nil_r.
    repeat split; auto. intros i Hi. lia.
  - rewrite simulate_step_unfold in H.
    destruct (calculate_portfolio_metrics _ _) as [[r k]|e] eqn:Hrk; simpl in H;
      [|discriminate].
    apply IH in H. destruct H as (rs & ks & ws & Hg & Hr & Hk & Hw & Lr & Lk & Lw & Hi).
    simpl in *.
    exists (r :: rs), (k :: ks), (draw 0 (random_state _ st) :: ws).
    rewrite Hg, Hr, Hk, Hw, <- !app_assoc. simpl.
    repeat split; auto.
    intros [|i] Hlt.
    + exists r, k. repeat split; auto.
    + destruct (Hi i) as (r' & k' & H1 & H2 & H3 & H4); [lia|].
      exists r', k'. repeat split; auto.
Qed.

Lemma simulate_loop_raises (n : nat) :
  forall (st : loop_state RandomState) (e : exn),
    simulate_loop RandomState dirichlet self n st = Raise e -> e = ValueError.
Proof.
  induction n as [|n IH]; intros st e H; simpl in H; [discriminate|].
  rewrite simulate_step_unfold in H.
  destruct (calculate_portfolio_metrics _ _) as [[r k]|e'] eqn:Hrk; simpl in H.
  - eapply IH, H.
  - injection H as <-. eapply calculate_portfolio_metrics_raises, Hrk.
Qed.

(** What a successful [simulate_portfolios] has stored. *)
Lemma simulate_portfolios_inv (g g' : RandomState) (self' : PortfolioOptimizer) :
  simulate_portfolios RandomState dirichlet self g = Ok (self', g') ->
  let K := Z.to_nat (number_of_scenarios (config self)) in
  exists rs ks ws,
    self' = set_portfolio_scenarios self
              {| returns := benchmark_return self :: rs;
                 risks := benchmark_risk self :: ks;
                 weights := ws |} /\
    length rs = K /\ length ks = K /\ length ws = K /\
    forall i, (i < K)%nat ->
      exists r k,
        nth_error rs i = Some r /\ nth_error ks i = Some k /\
        nth_error ws i = Some (draw i g) /\
        calculate_portfolio_metrics (draw i g) (portfolio_close self) = Ok (r, k).
Proof.
  unfold simulate_portfolios. intros H.
  destruct (simulate_loop _ _ _ _ _) as [st|e] eqn:Hloop; simpl in H; [|discriminate].
  injection H as <- <-.
  apply simulate_loop_inv in Hloop.
  destruct Hloop as (rs & ks & ws & Hg & Hr & Hk & Hw & Lr & Lk & Lw & Hi).
  simpl in *. exists rs, ks, ws. rewrite Hr, Hk, Hw. simpl. repeat split; auto.
Qed.

(** With one weight per price column every iteration succeeds. *)
Lemma simulate_loop_ok :
  (forall alpha s, length (fst (dirichlet alpha s)) = length alpha) ->
  n_assets = ncols (portfolio_close self) ->
  forall n st, exists st', simulate_loop RandomState dirichlet self n st = Ok st'.
Proof.
  intros Hdir Heq. induction n as [|n IH]; intros st; simpl; [eauto|].
  rewrite simulate_step_unfold.
  destruct (calculate_portfolio_metrics_ok (draw 0 (random_state _ st))
              (portfolio_close self)) as [[r k] Hrk].
  { unfold draw, generate_random_portfolio_weights. rewrite Hdir.
    unfold np.ones. rewrite repeat_length. exact Heq. }
  rewrite Hrk. simpl. apply IH.
Qed.

(** X9: fail-fast simulation.  For a sampler that returns one weight per
    concentration parameter, [simulate_portfolios] raises exactly when at
    least one scenario is requested and the number of tickers differs
    from the number of price columns, and then with the [ValueError] of
    the first evaluation; with no scenario requested it returns the
    benchmark alone. *)
Theorem simulate_portfolios_raises_iff (g : RandomState) :
  (forall alpha s, length (fst (dirichlet alpha s)) = length alpha) ->
  ((exists e, simulate_portfolios RandomState dirichlet self g = Raise e) <->
   (1 <= number_of_scenarios (config self))%Z /\
   n_assets <> ncols (portfolio_close self)) /\
  (forall e, simulate_portfolios RandomState dirichlet self g = Raise e -> e = ValueError) /\
  ((number_of_scenarios (config self) <= 0)%Z ->
   exists self',
     simulate_portfolios RandomState dirichlet self g = Ok (self', g) /\
     returns (portfolio_scenarios self') = [benchmark_return self] /\
     risks (portfolio_scenarios self') = [benchmark_risk self] /\
     weights (portfolio_scenarios self') = []).
Proof.
  intros Hdir.
  split; [|split].
  - split.
    + intros [e He]. unfold simulate_portfolios in He.
      destruct (Z.to_nat (number_of_scenarios (config self))) as [|n] eqn:HK;
        [simpl in He; discriminate|].
      split; [lia|]. intros Heq.
      match type of He with context [simulate_loop _ _ _ ?n' ?s] =>
        destruct (simulate_loop_ok Hdir Heq n' s) as [st' Hst'] end.
      rewrite Hst' in He. discriminate.
    + intros [HK Hne]. exists ValueError. unfold simulate_portfolios.
      destruct (Z.to_nat (number_of_scenarios (config self))) as [|n] eqn:Hn; [lia|].
      simpl. rewrite simulate_step_unfold.
      rewrite calculate_portfolio_metrics_mismatch; [reflexivity|].
      unfold draw, generate_random_portfolio_weights. rewrite Hdir.
      unfold np.ones. rewrite repeat_length. exact Hne.
  - intros e He. unfold simulate_portfolios in He.
    destruct (simulate_loop _ _ _ _ _) as [st|e'] eqn:Hloop; simpl in He; [discriminate|].
    injection He as <-. eapply simulate_loop_raises, Hloop.
  - intros HK. unfold simulate_portfolios.
    replace (Z.to_nat (number_of_scenarios (config self))) with 0%nat by lia.
    simpl. eexists. repeat split.
Qed.

End RunFacts.
Lemma simulate_portfolios_raises_iff_witness :
  simulate_portfolios nat equal_weights mismatched_optimizer 0%nat = Raise ValueError.
Proof.
  destruct (simulate_portfolios nat equal_weights mismatched_optimizer 0%nat)
    as [out|e] eqn:H; [vm_compute in H; discriminate|].
  f_equal.
  apply (proj1 (proj2 (simulate_portfolios_raises_iff nat equal_weights
                         mismatched_optimizer 0%nat
                         (fun alpha g => length_map _ alpha))) e H).
Defined.

(* ================================================================= *)
(** * Result generation *)

Lemma dict_get_set (d : list (String.string * float)) (k k' : String.string) (v : float) :
  dict_get (dict_set d k v) k' = if String.eqb k k' then Some v else dict_get d k'.
Proof.
  induction d as [|[k0 v0] d IH]; simpl.
  - reflexivity.
  - destruct (String.eqb k0 k) eqn:H0k; simpl.
    + apply String.eqb_eq in H0k. subst k0.
      destruct (String.eqb k k'); reflexivity.
    + destruct (String.eqb k0 k') eqn:H0k'.
      * apply String.eqb_eq in H0k'. subst k'.
        rewrite String.eqb_sym, H0k. reflexivity.
      * exact IH.
Qed.

Lemma find_app_first {A : Type} (f : A -> bool) (l1 l2 : list A) :
  find f (l1 ++ l2) = match find f l1 with Some x => Some x | None => find f l2 end.
Proof.
  induction l1 as [|x l1 IH]; simpl; [reflexivity|].
  destruct (f x); [reflexivity|exact IH].
Qed.

(** X10: the weights in the results.  [dict(zip(tickers, weights))] maps a
    ticker to the weight paired with its last occurrence, so a ticker
    listed twice keeps one weight only; when the tickers are distinct,
    the ticker at position [i] maps to the weight at position [i]. *)
Theorem dict_zip_lookup (keys : list String.string) (values : list float) :
  (forall k, dict_get (dict_zip keys values) k =
             option_map snd (find (fun kv => String.eqb (fst kv) k)
                                  (rev (combine keys values)))) /\
  (NoDup keys -> forall i k v,
     nth_error keys i = Some k -> nth_error values i = Some v ->
     dict_get (dict_zip keys values) k = Some v).
Proof.
  assert (Hlast : forall items k,
            dict_get (fold_left (fun d kv => dict_set d (fst kv) (snd kv)) items []) k =
            option_map snd (find (fun kv => String.eqb (fst kv) k) (rev items))).
  { intros items k. induction items as [|[k0 v0] items IH] using rev_ind.
    - reflexivity.
    - rewrite fold_left_app, rev_app_distr. simpl.
      rewrite dict_get_set, IH. destruct (String.eqb k0 k); reflexivity. }
  split; [intros k; apply Hlast|].
  intros Hnd i k v Hk Hv. unfold dict_zip. rewrite Hlast.
  assert (Hfind : forall items,
            NoDup (map fst items) -> In (k, v) items ->
            find (fun kv : String.string * float => String.eqb (fst kv) k) (rev items)
            = Some (k, v)).
  { intros items Hnd' Hin. induction items as [|[k0 v0] items IH]; [destruct Hin|].
    simpl in *. inversion Hnd' as [|? ? Hnotin Hnd'']; subst.
    rewrite find_app_first. destruct Hin as [Heq|Hin].
    - injection Heq as -> ->.
      destruct (find _ (rev items)) as [[k1 v1]|] eqn:Hf.
      + apply find_some in Hf. destruct Hf as [Hin1 Heq1]. simpl in Heq1.
        apply String.eqb_eq in Heq1. subst k1. apply in_rev in Hin1.
        exfalso. apply Hnotin. apply in_map_iff. exists (k, v1). auto.
      + simpl. rewrite String.eqb_refl. reflexivity.
    - rewrite (IH Hnd'' Hin). reflexivity. }
  rewrite (Hfind (combine keys values)); [reflexivity| |].
  - clear -Hnd. revert values. induction keys as [|k0 keys IH]; intros [|v0 values];
      simpl; try constructor.
    + inversion Hnd as [|? ? Hnotin Hnd']; subst. intros Hin. apply Hnotin.
      apply in_map_iff in Hin. destruct Hin as ([k1 v1] & Heq & Hin). simpl in Heq. subst.
      eapply in_combine_l, Hin.
    + inversion Hnd; subst. apply IH. assumption.
  - clear -Hk Hv. revert values i Hk Hv.
    induction keys as [|k0 keys IH]; intros [|v0 values] [|i] Hk Hv; simpl in *;
      try discriminate.
    + injection Hk as ->. injection Hv as ->. auto.
    + right. eapply IH; eauto.
Qed.

Lemma dict_zip_lookup_witness :
  dict_get (dict_zip example_tickers [0.4; 0.6]) (nth 1 example_tickers String.EmptyString)
  = Some 0.6.
Proof.
  apply (proj2 (dict_zip_lookup example_tickers [0.4; 0.6])) with (i := 1%nat).
  - repeat constructor; simpl; intuition discriminate.
  - reflexivity.
  - reflexivity.
Defined.

(** After [optimize_portfolio], [generate_results] raises only when the
    day count does not convert, and otherwise reports what the optimizer
    holds. *)
Lemma generate_results_after_optimize (self self' : PortfolioOptimizer) :
  optimize_portfolio self = Ok self' ->
  (Float64.of_int (trade_days_per_year (config self)) = Raise OverflowError /\
   generate_results self' = inl (CoreError OverflowError)) \/
  exists fd results r k w min_risk max_risk_stat min_return max_return,
    Float64.of_int (trade_days_per_year (config self)) = Ok fd /\
    generate_results self' = inr results /\
    optimal_portfolio self' = Some (r, k) /\
    optimal_weights self' = Some w /\
    np.amin (tl (risks (portfolio_scenarios self))) = Ok min_risk /\
    np_amax (tl (risks (portfolio_scenarios self))) = Ok max_risk_stat /\
    np.amin (tl (returns (portfolio_scenarios self))) = Ok min_return /\
    np_amax (tl (returns (portfolio_scenarios self))) = Ok max_return /\
    results =
      {| results_optimal :=
           {| daily_return := r; daily_risk := k;
              annual_return := r * fd;
              annual_risk := k * fd |};
         results_weights := dict_zip (portfolio_tickers (config self)) w;
         results_benchmark :=
           {| daily_return := benchmark_return self;
              daily_risk := benchmark_risk self;
              annual_return := benchmark_return self * fd;
              annual_risk := benchmark_risk self * fd |};
         results_risk_boundaries :=
           (min_risk, benchmark_risk self * (1 + delta_risk (config self)));
         results_simulation_stats :=
           {| total_scenarios := number_of_scenarios (config self);
              stats_min_risk := min_risk;
              stats_max_risk := max_risk_stat;
              stats_min_return := min_return;
              stats_max_return := max_return |} |}.
Proof.
  intros H. destruct (optimize_portfolio_inv _ _ H)
    as (m & idx & r & k & w & Hm & Hfind & Hlen & Hw & ->).
  unfold generate_results. simpl.
  destruct (Float64Arith.of_int_cases (trade_days_per_year (config self))) as [Hd|Hd].
  - right.
    rewrite !(annualize_metrics_converted _ _ _ _ Hd). simpl.
    destruct (tl (risks (portfolio_scenarios self))) as [|k1 ks] eqn:Hks; [discriminate|].
    destruct (tl (returns (portfolio_scenarios self))) as [|r1 rs] eqn:Hrs; [discriminate|].
    simpl in Hm. injection Hm as Hm. simpl. rewrite Hm.
    do 9 eexists. split; [exact Hd|]. repeat split; reflexivity.
  - left. split; [exact Hd|].
    rewrite !(annualize_metrics_overflow _ _ _ Hd). reflexivity.
Qed.

(** X11: the report lies within the population.  After a successful
    [optimize_portfolio] on scenarios without NaN, and with a day count that
    Python converts to a float, [generate_results] returns a report whose
    optimal daily risk and return lie between the minimum and the maximum
    it reports for the scenarios, and whose lower risk boundary is the
    reported minimum risk; with a day count whose conversion overflows it
    raises [OverflowError]. *)
Theorem generate_results_within_population (self self' : PortfolioOptimizer) :
  optimize_portfolio self = Ok self' ->
  Forall (fun y => is_nan y = false) (tl (risks (portfolio_scenarios self))) ->
  Forall (fun y => is_nan y = false) (tl (returns (portfolio_scenarios self))) ->
  (Float64.of_int (trade_days_per_year (config self)) = Raise OverflowError ->
   generate_results self' = inl (CoreError OverflowError)) /\
  (forall fd,
     Float64.of_int (trade_days_per_year (config self)) = Ok fd ->
     exists results,
       generate_results self' = inr results /\
       let o := results_optimal results in
       let s := results_simulation_stats results in
       (stats_min_risk s <=? daily_risk o) = true /\
       (daily_risk o <=? stats_max_risk s) = true /\
       (stats_min_return s <=? daily_return o) = true /\
       (daily_return o <=? stats_max_return s) = true /\
       fst (results_risk_boundaries results) = stats_min_risk s).
Proof.
  intros H Hks Hrs.
  destruct (generate_results_after_optimize _ _ H)
    as [[Hd Hgen]|(fd' & results & r & k & w & mn & mx & mnr & mxr & Hd & Hgen & Hopt & _ &
        Hmn & Hmx & Hmnr & Hmxr & ->)].
  { split; [intros _; exact Hgen|]. intros fd Hfd. congruence. }
  split; [intros Hov; congruence|]. intros fd _.
  destruct (optimize_portfolio_inv _ _ H)
    as (m & idx & r' & k' & w' & _ & Hfind & _ & _ & ->).
  simpl in Hopt. injection Hopt as -> ->.
  apply find_optimal_portfolio_stored, nth_error_combine in Hfind.
  destruct Hfind as [Hr Hk]. apply nth_error_In in Hr, Hk.
  eexists. split; [exact Hgen|]. simpl.
  pose proof (amin_lower _ _ Hks Hmn) as H1. pose proof (amax_upper _ _ Hks Hmx) as H2.
  pose proof (amin_lower _ _ Hrs Hmnr) as H3. pose proof (amax_upper _ _ Hrs Hmxr) as H4.
  rewrite Forall_forall in H1, H2, H3, H4. repeat split; auto.
Qed.

Lemma generate_results_within_population_witness :
  exists self' results,
    optimize_portfolio example_population = Ok self' /\
    Float64.of_int (trade_days_per_year (config example_population)) = Ok 252 /\
    generate_results self' = inr results /\
    (stats_min_risk (results_simulation_stats results)
       <=? daily_risk (results_optimal results)) = true.
Proof.
  destruct (optimize_portfolio example_population) as [self'|e] eqn:H;
    [|vm_compute in H; discriminate].
  assert (Hks : Forall (fun y => is_nan y = false)
                       (tl (risks (portfolio_scenarios example_population))))
    by repeat constructor.
  assert (Hrs : Forall (fun y => is_nan y = false)
                       (tl (returns (portfolio_scenarios example_population))))
    by repeat constructor.
  assert (Hd : Float64.of_int (trade_days_per_year (config example_population)) = Ok 252)
    by (vm_compute; reflexivity).
  destruct (proj2 (generate_results_within_population example_population self' H Hks Hrs)
              _ Hd) as (results & Hgen & Hlow & _).
  exists self', results. repeat split; assumption.
Defined.

(* ================================================================= *)
(** * Configuration *)

Lemma SFleb_false_ltb (a b : spec_float) :
  a <> S754_nan -> b <> S754_nan -> SFleb a b = false -> SFltb b a = true.
Proof.
  unfold SFleb, SFltb.
  destruct a as [s1|s1| |s1 m1 e1], b as [s2|s2| |s2 m2 e2]; simpl; try congruence;
    try (destruct s1; simpl; congruence); try (destruct s2; simpl; congruence);
    try (destruct s1, s2; simpl; congruence).
  intros _ _.
  destruct s1, s2; simpl; try congruence;
    destruct (Z.compare_spec e1 e2), (Z.compare_spec e2 e1); simpl; try congruence; try lia;
    rewrite !Pos.compare_cont_spec; simpl;
    destruct (Pos.compare_spec m1 m2), (Pos.compare_spec m2 m1); simpl; try congruence; lia.
Qed.

Lemma SFltb_leb_false (a b : spec_float) : SFltb b a = true -> SFleb a b = false.
Proof.
  unfold SFleb, SFltb.
  destruct a as [s1|s1| |s1 m1 e1], b as [s2|s2| |s2 m2 e2]; simpl; try congruence;
    try (destruct s1; simpl; congruence); try (destruct s2; simpl; congruence);
    try (destruct s1, s2; simpl; congruence).
  destruct s1, s2; simpl; try congruence;
    destruct (Z.compare_spec e1 e2), (Z.compare_spec e2 e1); simpl; try congruence; try lia;
    rewrite !Pos.compare_cont_spec; simpl;
    destruct (Pos.compare_spec m1 m2), (Pos.compare_spec m2 m1); simpl; try congruence; lia.
Qed.

(** Away from NaN, "not [<=]" is the strict converse order. *)
Lemma leb_false_iff_ltb (x y : float) :
  is_nan x = false -> is_nan y = false ->
  ((x <=? y) = false <-> (y <? x) = true).
Proof.
  intros Hx Hy. rewrite leb_spec, ltb_spec. split.
  - apply SFleb_false_ltb; apply Float64Facts.not_nan_decoded; assumption.
  - apply SFltb_leb_false.
Qed.

Lemma leb_nan_l (x y : float) : is_nan x = true -> (x <=? y) = false.
Proof.
  unfold is_nan. rewrite leb_spec, FloatAxioms.eqb_spec. unfold SFleb, SFeqb.
  destruct (Prim2SF x) as [s|s| |s m e]; simpl; try reflexivity.
  - discriminate.
  - destruct s; discriminate.
  - destruct s; rewrite Z.compare_refl, Pos.compare_cont_refl; discriminate.
Qed.

Lemma leb_nan_r (x y : float) : is_nan y = true -> (x <=? y) = false.
Proof.
  unfold is_nan. rewrite leb_spec, FloatAxioms.eqb_spec. unfold SFleb, SFeqb.
  destruct (Prim2SF y) as [s|s| |s m e]; simpl.
  - discriminate.
  - destruct s; discriminate.
  - intros _. destruct (Prim2SF x); reflexivity.
  - destruct s; rewrite Z.compare_refl, Pos.compare_cont_refl; discriminate.
Qed.

(** X12: what the validation accepts.  [__post_init__] accepts a
    configuration, unchanged, exactly when the scenario count and the
    trading days are at least 1 and [delta_risk] is strictly between 0 and
    1 or is NaN, which fails neither comparison. *)
Theorem post_init_accepts (c : PortfolioConfig) :
  ((exists c', post_init c = Ok c') <->
   (1 <= number_of_scenarios c)%Z /\ (1 <= trade_days_per_year c)%Z /\
   (is_nan (delta_risk c) = true \/
    ((0 <? delta_risk c) = true /\ (delta_risk c <? 1) = true))) /\
  (forall c', post_init c = Ok c' -> c' = c) /\
  (forall e, post_init c = Raise e -> e = ValueError).
Proof.
  unfold post_init.
  assert (Hdelta : ((delta_risk c <=? 0) || (1 <=? delta_risk c)) = false <->
                   (is_nan (delta_risk c) = true \/
                    ((0 <? delta_risk c) = true /\ (delta_risk c <? 1) = true))).
  { rewrite orb_false_iff. destruct (is_nan (delta_risk c)) eqn:Hnan.
    - rewrite leb_nan_l, leb_nan_r by assumption. tauto.
    - rewrite !leb_false_iff_ltb by (auto; reflexivity).
      split; [tauto|]. intros [H|H]; [discriminate|tauto]. }
  split; [|split].
  - destruct (number_of_scenarios c <=? 0)%Z eqn:HK.
    { apply Z.leb_le in HK. split; [intros [c' H]; discriminate|lia]. }
    apply Z.leb_gt in HK.
    destruct ((delta_risk c <=? 0) || (1 <=? delta_risk c)) eqn:Hd.
    { split; [intros [c' H]; discriminate|].
      intros (_ & _ & H). apply Hdelta in H. discriminate. }
    destruct (trade_days_per_year c <=? 0)%Z eqn:HT.
    { apply Z.leb_le in HT. split; [intros [c' H]; discriminate|lia]. }
    apply Z.leb_gt in HT. split; [|eauto].
    intros _. repeat split; try lia. apply Hdelta. reflexivity.
  - intros c' H.
    destruct (_ <=? 0)%Z; [discriminate|]. destruct (_ || _); [discriminate|].
    destruct (_ <=? 0)%Z; [discriminate|]. congruence.
  - intros e H.
    destruct (_ <=? 0)%Z; [congruence|]. destruct (_ || _); [congruence|].
    destruct (_ <=? 0)%Z; [congruence|]. discriminate.
Qed.
Lemma post_init_accepts_witness : exists c', post_init example_config = Ok c'.
Proof.
  apply (proj2 (proj1 (post_init_accepts example_config))).
  split; [simpl; lia|]. split; [simpl; lia|].
  right. split; reflexivity.
Defined.

(** A validated configuration asks for at least one scenario. *)
Lemma post_init_scenarios (c c' : PortfolioConfig) :
  post_init c = Ok c' -> (1 <= number_of_scenarios c)%Z.
Proof.
  unfold post_init. destruct (number_of_scenarios c <=? 0)%Z eqn:HK; [discriminate|].
  intros _. apply Z.leb_gt in HK. lia.
Qed.

(** A validated configuration has at least one trading day. *)
Lemma post_init_trade_days (c c' : PortfolioConfig) :
  post_init c = Ok c' -> (1 <= trade_days_per_year c)%Z.
Proof.
  unfold post_init. destruct (number_of_scenarios c <=? 0)%Z; [discriminate|].
  destruct (_ || _); [discriminate|].
  destruct (trade_days_per_year c <=? 0)%Z eqn:HT; [discriminate|].
  intros _. apply Z.leb_gt in HT. lia.
Qed.

(* ================================================================= *)
(** * The optimisation run *)

Lemma analyze_benchmark_value (benchmark_prices : list float) (self : PortfolioOptimizer) :
  analyze_benchmark benchmark_prices self =
    Ok (set_benchmark self (np.average (later_price_returns benchmark_prices))
                           (np.std (later_price_returns benchmark_prices))).
Proof.
  unfold analyze_benchmark. rewrite calculate_returns_and_risk_value. reflexivity.
Qed.

(** On a population of [K + 1] returns and risks and [K] weight vectors
    the only exception of [optimize_portfolio] is a [ValueError]. *)
Lemma optimize_portfolio_raises (self : PortfolioOptimizer) (K : nat) (e : exn) :
  length (returns (portfolio_scenarios self)) = S K ->
  length (risks (portfolio_scenarios self)) = S K ->
  length (weights (portfolio_scenarios self)) = K ->
  optimize_portfolio self = Raise e -> e = ValueError.
Proof.
  intros Hr Hk Hw. unfold optimize_portfolio.
  destruct (returns (portfolio_scenarios self)) as [|r0 a]; [discriminate|].
  destruct (risks (portfolio_scenarios self)) as [|k0 b]; [discriminate|].
  simpl in *. injection Hr as Hr. injection Hk as Hk.
  assert (Hab : length a = length b) by congruence.
  unfold np.column_stack. rewrite Hab, Nat.eqb_refl. simpl.
  destruct (np.amin b) as [m|e'] eqn:Hm; simpl.
  2:{ destruct b; simpl in Hm; [|discriminate]. congruence. }
  destruct (find_optimal_portfolio _ _ _) as [[best idx]|e'] eqn:Hfind; simpl.
  2:{ intros H. injection H as <-. eapply find_optimal_portfolio_raises, Hfind. }
  apply find_optimal_portfolio_stored in Hfind.
  assert (Hidx : (idx < length (combine a b))%nat)
    by (apply nth_error_Some; congruence).
  rewrite length_combine in Hidx. unfold np.item.
  destruct (nth_error (weights (portfolio_scenarios self)) idx) eqn:Hwi;
    [discriminate|apply nth_error_None in Hwi; lia].
Qed.

Section RunOptimizationFacts.

Variable RandomState : Type.
Variable dirichlet : list float -> RandomState -> list float * RandomState.
Variable self : PortfolioOptimizer.
Variable benchmark_prices : list float.

Let n_assets := length (portfolio_tickers (config self)).
Let K := Z.to_nat (number_of_scenarios (config self)).
Let draw (i : nat) (g : RandomState) : list float :=
  fst (generate_random_portfolio_weights RandomState dirichlet n_assets
         (state_after RandomState dirichlet n_assets i g)).

(** X13: the exceptions of a run.  Whatever the inputs, a run that fails
    fails with a numpy [ValueError] (a shape mismatch, an empty
    population, no candidate) or, when the trading-day count does not
    convert to a float, with the [OverflowError] of the annualizer: never
    with an index out of range, a missing result or a missing attribute. *)
Theorem run_optimization_raises (g : RandomState) (e : report_exn) :
  run_optimization RandomState dirichlet benchmark_prices self g = inl e ->
  e = CoreError ValueError \/
  (e = CoreError OverflowError /\
   Float64.of_int (trade_days_per_year (config self)) = Raise OverflowError).
Proof.
  unfold run_optimization. rewrite analyze_benchmark_value.
  set (self1 := set_benchmark self _ _).
  destruct (simulate_portfolios RandomState dirichlet self1 g) as [[self2 g']|e1] eqn:Hsim.
  2:{ intros H. injection H as <-. left. f_equal.
      unfold simulate_portfolios in Hsim.
      destruct (simulate_loop _ _ _ _ _) as [st|e'] eqn:Hloop; simpl in Hsim;
        [discriminate|].
      injection Hsim as <-. eapply simulate_loop_raises, Hloop. }
  apply simulate_portfolios_inv in Hsim.
  destruct Hsim as (rs & ks & ws & -> & Lr & Lk & Lw & _).
  destruct (optimize_portfolio _) as [self3|e3] eqn:Hopt.
  2:{ intros H. injection H as <-. left. f_equal.
      eapply (optimize_portfolio_raises _ (length ws)); [| | |exact Hopt]; simpl; congruence. }
  destruct (generate_results_after_optimize _ _ Hopt)
    as [[Hd Hgen]|(fd & results & ? & ? & ? & ? & ? & ? & ? & _ & Hgen & _)].
  - rewrite Hgen. intros H. injection H as <-. right. split; [reflexivity|exact Hd].
  - rewrite Hgen. discriminate.
Qed.

(** X14: what a run reports.  When a run returns, the benchmark figures
    are the estimator's for the benchmark prices; the reported weights are
    one of the vectors drawn, and evaluating them on the price matrix gives
    exactly the reported daily return and risk; the annual figures are the
    daily ones scaled by the trading days; the risk boundaries are the
    reported minimum risk and the benchmark risk times [1 + delta_risk]. *)
Theorem run_optimization_report (g g' : RandomState)
  (self' : PortfolioOptimizer) (results : Results) :
  run_optimization RandomState dirichlet benchmark_prices self g
    = inr (self', results, g') ->
  let o := results_optimal results in
  let b := results_benchmark results in
  let days := trade_days_per_year (config self) in
  calculate_returns_and_risk benchmark_prices = Ok (daily_return b, daily_risk b) /\
  (exists i, (i < K)%nat /\
     optimal_weights self' = Some (draw i g) /\
     results_weights results = dict_zip (portfolio_tickers (config self)) (draw i g) /\
     calculate_portfolio_metrics (draw i g) (portfolio_close self)
       = Ok (daily_return o, daily_risk o)) /\
  annualize_metrics (daily_return o) (daily_risk o) days = Ok (annual_return o, annual_risk o) /\
  annualize_metrics (daily_return b) (daily_risk b) days = Ok (annual_return b, annual_risk b) /\
  results_risk_boundaries results =
    (stats_min_risk (results_simulation_stats results),
     daily_risk b * (1 + delta_risk (config self))) /\
  g' = state_after RandomState dirichlet n_assets K g.
Proof.
  unfold run_optimization. rewrite analyze_benchmark_value.
  set (self1 := set_benchmark self _ _).
  destruct (simulate_portfolios RandomState dirichlet self1 g) as [[self2 g2]|e1] eqn:Hsim;
    [|discriminate].
  pose proof Hsim as Hg. unfold simulate_portfolios in Hg.
  destruct (simulate_loop _ _ _ _ _) as [st|e'] eqn:Hloop; simpl in Hg; [|discriminate].
  injection Hg as _ Hg. apply simulate_loop_inv in Hloop.
  destruct Hloop as (_ & _ & _ & Hst & _). simpl in Hst.
  apply simulate_portfolios_inv in Hsim.
  destruct Hsim as (rs & ks & ws & -> & Lr & Lk & Lw & Hi).
  destruct (optimize_portfolio _) as [self3|e3] eqn:Hopt; [|discriminate].
  destruct (generate_results_after_optimize _ _ Hopt)
    as [[_ Hgen]|(fd & res & r & k & w & mn & mx & mnr & mxr &
                  Hd & Hgen & Hop & How & _ & _ & _ & _ & Hres)];
    [rewrite Hgen; discriminate|].
  rewrite Hgen. intros H. injection H as <- <- <-.
  destruct (optimize_portfolio_inv _ _ Hopt)
    as (m & idx & r' & k' & w' & _ & Hfind & _ & Hw & Hself).
  rewrite Hself in Hop, How. simpl in Hop, How, Hfind, Hw.
  injection Hop as <- <-. injection How as <-.
  apply find_optimal_portfolio_stored, nth_error_combine in Hfind.
  destruct Hfind as [Hr Hk].
  assert (Lw' : length ws = K) by exact Lw.
  assert (Hidx : (idx < K)%nat).
  { rewrite <- Lw'. apply nth_error_Some. congruence. }
  destruct (Hi idx Hidx) as (r0 & k0 & H1 & H2 & H3 & H4).
  simpl in *. rewrite Hr in H1. rewrite Hk in H2. rewrite Hw in H3.
  injection H1 as <-. injection H2 as <-. injection H3 as ->.
  rewrite Hres. simpl.
  split; [apply calculate_returns_and_risk_value|].
  split; [exists idx; repeat split; auto; rewrite Hself; reflexivity|].
  split; [exact (annualize_metrics_converted _ _ _ _ Hd)|].
  split; [exact (annualize_metrics_converted _ _ _ _ Hd)|].
  repeat split; auto. rewrite <- Hg, Hst. reflexivity.
Qed.

(** X15: when a run succeeds.  With a validated configuration whose
    trading-day count is below [2^53] (so that it converts to a float), a
    sampler that returns one weight per concentration parameter, as many
    price columns as tickers, and draws whose risks are not NaN, the run
    returns its results. *)
Theorem run_optimization_succeeds (g : RandomState) :
  post_init (config self) = Ok (config self) ->
  (trade_days_per_year (config self) < 2 ^ 53)%Z ->
  (forall alpha s, length (fst (dirichlet alpha s)) = length alpha) ->
  ncols (portfolio_close self) = n_assets ->
  (forall i r k, (i < K)%nat ->
     calculate_portfolio_metrics (draw i g) (portfolio_close self) = Ok (r, k) ->
     is_nan k = false) ->
  exists out,
    run_optimization RandomState dirichlet benchmark_prices self g = inr out.
Proof.
  intros Hcfg Hdays Hdir Hcols Hnan.
  assert (HK : (1 <= K)%nat).
  { apply post_init_scenarios in Hcfg. unfold K. lia. }
  assert (Hconv : Float64.of_int (trade_days_per_year (config self))
                  = Ok (Float64.of_Z (trade_days_per_year (config self)))).
  { apply Float64Arith.of_int_small. apply post_init_trade_days in Hcfg. lia. }
  unfold run_optimization. rewrite analyze_benchmark_value.
  set (self1 := set_benchmark self _ _).
  destruct (simulate_portfolios RandomState dirichlet self1 g) as [[self2 g2]|e1] eqn:Hsim.
  2:{ exfalso. unfold simulate_portfolios in Hsim.
      match type of Hsim with context [simulate_loop _ _ _ ?n ?s] =>
        destruct (simulate_loop_ok RandomState dirichlet self1 Hdir
                    (eq_sym Hcols) n s) as [st' Hst'] end.
      rewrite Hst' in Hsim. discriminate. }
  pose proof Hsim as Hinv. apply simulate_portfolios_inv in Hinv.
  destruct Hinv as (rs & ks & ws & Hself2 & Lr & Lk & Lw & Hi).
  assert (Lr' : length rs = K) by exact Lr.
  assert (Lk' : length ks = K) by exact Lk.
  assert (Lw' : length ws = K) by exact Lw.
  destruct (optimize_portfolio_returns self2 K) as [self3 Hopt].
  - exact HK.
  - rewrite Hself2. simpl. congruence.
  - rewrite Hself2. simpl. congruence.
  - rewrite Hself2. simpl. congruence.
  - rewrite Hself2. simpl. apply Forall_forall. intros k Hin.
    apply In_nth_error in Hin. destruct Hin as [i Hik].
    assert (Hlt : (i < K)%nat) by (rewrite <- Lk'; apply nth_error_Some; congruence).
    destruct (Hi i Hlt) as (r0 & k0 & _ & H2 & _ & H4).
    rewrite Hik in H2. injection H2 as <-. eapply (Hnan i r0 k Hlt). exact H4.
  - rewrite Hopt.
    destruct (generate_results_after_optimize _ _ Hopt)
      as [[Hd _]|(fd & res & ? & ? & ? & ? & ? & ? & ? & _ & Hgen & _)].
    + rewrite Hself2 in Hd. simpl in Hd. congruence.
    + rewrite Hgen. eauto.
Qed.

End RunOptimizationFacts.

Lemma run_optimization_raises_witness :
  exists e,
    run_optimization nat equal_weights example_prices huge_days_optimizer 0%nat = inl e /\
    (e = CoreError ValueError \/
     (e = CoreError OverflowError /\
      Float64.of_int (trade_days_per_year (config huge_days_optimizer))
      = Raise OverflowError)).
Proof.
  destruct (run_optimization nat equal_weights example_prices huge_days_optimizer 0%nat)
    as [e|out] eqn:H; [|vm_compute in H; discriminate].
  exists e. split; [reflexivity|].
  exact (run_optimization_raises nat equal_weights huge_days_optimizer example_prices
           0%nat e H).
Defined.

(** Both exceptions occur: three price columns for two tickers, and a day
    count of [10^400] on data that is otherwise in order. *)
Example run_optimization_exceptions :
  run_optimization nat equal_weights example_prices mismatched_optimizer 0%nat
    = inl (CoreError ValueError) /\
  post_init (config huge_days_optimizer) = Ok (config huge_days_optimizer) /\
  run_optimization nat equal_weights example_prices huge_days_optimizer 0%nat
    = inl (CoreError OverflowError).
Proof. repeat split; vm_compute; reflexivity. Qed.

Lemma run_optimization_report_witness :
  exists self' results g',
    run_optimization nat equal_weights example_prices example_optimizer 0%nat
      = inr (self', results, g') /\
    calculate_returns_and_risk example_prices
      = Ok (daily_return (results_benchmark results),
            daily_risk (results_benchmark results)) /\
    g' = 3%nat.
Proof.
  destruct (run_optimization nat equal_weights example_prices example_optimizer 0%nat)
    as [e|[[self' results] g']] eqn:H; [vm_compute in H; discriminate|].
  destruct (run_optimization_report nat equal_weights example_optimizer example_prices
              0%nat g' self' results H) as (Hb & _ & _ & _ & _ & Hg).
  exists self', results, g'. split; [reflexivity|]. split; [exact Hb|exact Hg].
Defined.

Lemma run_optimization_succeeds_witness :
  exists out,
    run_optimization nat equal_weights example_prices example_optimizer 0%nat = inr out.
Proof.
  apply (run_optimization_succeeds nat equal_weights example_optimizer example_prices 0%nat).
  - reflexivity.
  - reflexivity.
  - intros alpha s. apply length_map.
  - reflexivity.
  - intros i r k Hi H.
    destruct i as [|[|[|i]]]; [| | |simpl in Hi; lia];
      vm_compute in H; injection H as _ <-; reflexivity.
Defined.

(* ================================================================= *)
(** * Ticker lists *)

Lemma split_nonempty (sep : Ascii.ascii) (s : String.string) : str_split sep s <> [].
Proof.
  destruct s as [|c s]; simpl; [discriminate|].
  destruct (Ascii.eqb c sep); [discriminate|].
  destruct (str_split sep s); discriminate.
Qed.

Lemma join_cons (sep : Ascii.ascii) (p : String.string) (l : list String.string) :
  l <> [] -> str_join sep (p :: l) = String.append p (String.String sep (str_join sep l)).
Proof. destruct l; [congruence|reflexivity]. Qed.

Lemma join_split (sep : Ascii.ascii) (s : String.string) : str_join sep (str_split sep s) = s.
Proof.
  induction s as [|c s IH]; simpl; [reflexivity|].
  destruct (Ascii.eqb c sep) eqn:Hc.
  - apply Ascii.eqb_eq in Hc. subst c.
    rewrite join_cons by apply split_nonempty. simpl. rewrite IH. reflexivity.
  - pose proof (split_nonempty sep s) as Hne.
    destruct (str_split sep s) as [|p [|q l]]; [congruence| |].
    + simpl in *. rewrite IH. reflexivity.
    + change (String.String c (String.append p
                (String.String sep (str_join sep (q :: l)))) = String.String c s).
      f_equal. exact IH.
Qed.

Lemma split_pieces (sep : Ascii.ascii) (s : String.string) :
  Forall (fun p => str_contains sep p = false) (str_split sep s).
Proof.
  induction s as [|c s IH]; simpl.
  - constructor; [reflexivity|constructor].
  - destruct (Ascii.eqb c sep) eqn:Hc.
    + constructor; [reflexivity|exact IH].
    + destruct (str_split sep s) as [|p l]; [constructor; [simpl; rewrite Hc; reflexivity|constructor]|].
      inversion IH; subst. constructor; [simpl; rewrite Hc; assumption|assumption].
Qed.

Lemma split_append (sep : Ascii.ascii) (p t : String.string) :
  str_contains sep p = false ->
  str_split sep (String.append p (String.String sep t)) = p :: str_split sep t.
Proof.
  induction p as [|c p IH]; simpl; intros H.
  - rewrite Ascii.eqb_refl. reflexivity.
  - apply orb_false_iff in H. destruct H as [Hc Hp]. rewrite Hc, (IH Hp). reflexivity.
Qed.

Lemma split_piece (sep : Ascii.ascii) (p : String.string) :
  str_contains sep p = false -> str_split sep p = [p].
Proof.
  induction p as [|c p IH]; simpl; intros H; [reflexivity|].
  apply orb_false_iff in H. destruct H as [Hc Hp]. rewrite Hc, (IH Hp). reflexivity.
Qed.

Lemma split_join (sep : Ascii.ascii) (l : list String.string) :
  l <> [] -> Forall (fun p => str_contains sep p = false) l -> str_split sep (str_join sep l) = l.
Proof.
  induction l as [|p l IH]; intros Hne Hall; [congruence|].
  inversion Hall as [|? ? Hp Hl]; subst.
  destruct l as [|q l].
  - simpl. apply split_piece, Hp.
  - rewrite join_cons by discriminate. rewrite split_append by exact Hp.
    rewrite IH; [reflexivity|discriminate|exact Hl].
Qed.

(** X16: ticker lists and the comma.  Splitting an option value at the
    commas and joining the pieces gives the value back; the split always
    yields at least one ticker and none of them holds a comma; joining a
    non-empty list of comma-free tickers and splitting gives the list
    back, whereas the empty list comes back as one empty ticker. *)
Theorem tickers_round_trip :
  (forall value, tickers_option (tickers_of value) = value) /\
  (forall value, tickers_of value <> [] /\
                 Forall (fun t => str_contains comma t = false) (tickers_of value)) /\
  (forall tickers, tickers <> [] ->
     Forall (fun t => str_contains comma t = false) tickers ->
     tickers_of (tickers_option tickers) = tickers) /\
  tickers_of (tickers_option []) = [String.EmptyString].
Proof.
  unfold tickers_option, tickers_of. repeat split.
  - intros value. apply join_split.
  - apply split_nonempty.
  - apply split_pieces.
  - intros tickers. apply split_join.
Qed.

Lemma tickers_round_trip_witness :
  tickers_of (tickers_option example_tickers) = example_tickers.
Proof.
  apply (proj1 (proj2 (proj2 tickers_round_trip)) example_tickers).
  - discriminate.
  - repeat constructor.
Defined.

(* ================================================================= *)
(** * Calendar matching *)

Lemma mem_In (d : Z) (l : list Z) : pd.mem d l = true <-> In d l.
Proof.
  unfold pd.mem. rewrite existsb_exists. split.
  - intros (x & Hx & Heq). apply Z.eqb_eq in Heq. subst. exact Hx.
  - intros H. exists d. split; [exact H|apply Z.eqb_refl].
Qed.

Lemma mem_intersection (d : Z) (a b : list Z) :
  pd.mem d (pd.intersection a b) = pd.mem d a && pd.mem d b.
Proof.
  apply eq_true_iff_eq. rewrite andb_true_iff, !mem_In.
  unfold pd.intersection. rewrite filter_In, mem_In. tauto.
Qed.

Lemma select_isin (df : pd.DataFrame) (values : list Z) :
  pd.select df (pd.isin (pd.index df) values) =
  filter (fun row => pd.mem (fst row) values) df.
Proof.
  induction df as [|row df IH]; simpl; [reflexivity|].
  rewrite IH. reflexivity.
Qed.

(** The matched frames are the clean rows whose day the other clean
    frame has as well. *)
Lemma clean_and_match_data_filter (df1 df2 : pd.DataFrame) :
  clean_and_match_data df1 df2 =
    (filter (fun row => pd.mem (fst row) (pd.index (pd.dropna df2))) (pd.dropna df1),
     filter (fun row => pd.mem (fst row) (pd.index (pd.dropna df1))) (pd.dropna df2)).
Proof.
  unfold clean_and_match_data. rewrite !select_isin. f_equal.
  - apply filter_ext_in. intros row Hrow. rewrite mem_intersection.
    assert (H : pd.mem (fst row) (pd.index (pd.dropna df1)) = true)
      by (apply mem_In; unfold pd.index; apply in_map; exact Hrow).
    rewrite H. reflexivity.
  - apply filter_ext_in. intros row Hrow. rewrite mem_intersection.
    assert (H : pd.mem (fst row) (pd.index (pd.dropna df2)) = true)
      by (apply mem_In; unfold pd.index; apply in_map; exact Hrow).
    rewrite H. apply andb_true_r.
Qed.

Lemma matched_index (keep : list Z) (df : pd.DataFrame) (d : Z) :
  In d (pd.index (filter (fun row => pd.mem (fst row) keep) df)) <->
  In d (pd.index df) /\ In d keep.
Proof.
  unfold pd.index. rewrite !in_map_iff. split.
  - intros (row & <- & Hrow). apply filter_In in Hrow. destruct Hrow as [Hin Hmem].
    split; [exists row; auto|apply mem_In, Hmem].
  - intros [(row & <- & Hrow) Hkeep]. exists row. split; [reflexivity|].
    apply filter_In. split; [exact Hrow|apply mem_In, Hkeep].
Qed.

(** The returned frames have the same days, and their rows are rows of
    the inputs without a missing value. *)
Lemma clean_and_match_data_days (df1 df2 m1 m2 : pd.DataFrame) :
  clean_and_match_data df1 df2 = (m1, m2) ->
  (forall d, In d (pd.index m1) <-> In d (pd.index m2)) /\
  (forall row, In row m1 -> In row df1 /\ existsb is_nan (snd row) = false) /\
  (forall row, In row m2 -> In row df2 /\ existsb is_nan (snd row) = false).
Proof.
  rewrite clean_and_match_data_filter. intros H. injection H as <- <-.
  split; [|split].
  - intros d. rewrite !matched_index. tauto.
  - intros row Hrow. apply filter_In in Hrow. destruct Hrow as [Hrow _].
    unfold pd.dropna in Hrow. apply filter_In in Hrow. destruct Hrow as [Hin Hnan].
    split; [exact Hin|]. apply negb_true_iff, Hnan.
  - intros row Hrow. apply filter_In in Hrow. destruct Hrow as [Hrow _].
    unfold pd.dropna in Hrow. apply filter_In in Hrow. destruct Hrow as [Hin Hnan].
    split; [exact Hin|]. apply negb_true_iff, Hnan.
Qed.

Lemma matched_rows (df other : pd.DataFrame) (row : Z * list float) :
  In row (filter (fun r => pd.mem (fst r) (pd.index (pd.dropna other))) (pd.dropna df)) <->
  In row df /\ existsb is_nan (snd row) = false /\
  exists row', In row' other /\ fst row' = fst row /\ existsb is_nan (snd row') = false.
Proof.
  rewrite filter_In, mem_In. unfold pd.dropna at 1. rewrite filter_In, negb_true_iff.
  unfold pd.index. rewrite in_map_iff. unfold pd.dropna.
  split.
  - intros [[Hin Hnan] (row' & Hday & Hrow')].
    apply filter_In in Hrow'. rewrite negb_true_iff in Hrow'.
    split; [exact Hin|]. split; [exact Hnan|]. exists row'. tauto.
  - intros (Hin & Hnan & row' & Hin' & Hday & Hnan').
    split; [tauto|]. exists row'. split; [exact Hday|].
    apply filter_In. rewrite negb_true_iff. tauto.
Qed.

(** X17: what the matching keeps.  A row is returned by
    [clean_and_match_data] exactly when it is a row of its input without
    a missing value whose day is also the day of a row without a missing
    value in the other input; so the two returned frames cover the same
    days. *)
Theorem clean_and_match_data_rows (df1 df2 m1 m2 : pd.DataFrame) :
  clean_and_match_data df1 df2 = (m1, m2) ->
  (forall row, In row m1 <->
     In row df1 /\ existsb is_nan (snd row) = false /\
     exists row', In row' df2 /\ fst row' = fst row /\
                  existsb is_nan (snd row') = false) /\
  (forall row, In row m2 <->
     In row df2 /\ existsb is_nan (snd row) = false /\
     exists row', In row' df1 /\ fst row' = fst row /\
                  existsb is_nan (snd row') = false) /\
  (forall d, In d (pd.index m1) <-> In d (pd.index m2)).
Proof.
  intros H. pose proof (clean_and_match_data_days _ _ _ _ H) as (Hdays & _).
  rewrite clean_and_match_data_filter in H. injection H as <- <-.
  split; [|split].
  - intros row. apply matched_rows.
  - intros row. apply matched_rows.
  - exact Hdays.
Qed.

Lemma clean_and_match_data_rows_witness :
  clean_and_match_data example_benchmark_frame example_portfolio_frame
    = ([(1%Z, [100]); (5%Z, [104])], [(1%Z, [10; 20]); (5%Z, [13; 23])]) /\
  (forall d, In d [1%Z; 5%Z] <-> In d [1%Z; 5%Z]).
Proof.
  assert (E : clean_and_match_data example_benchmark_frame example_portfolio_frame
              = ([(1%Z, [100]); (5%Z, [104])], [(1%Z, [10; 20]); (5%Z, [13; 23])]))
    by (vm_compute; reflexivity).
  split; [exact E|].
  apply (clean_and_match_data_rows _ _ _ _ E).
Defined.

Lemma increasing_filter (f : Z * list float -> bool) (df : pd.DataFrame) :
  increasing (pd.index df) -> increasing (pd.index (filter f df)).
Proof.
  induction df as [|row df IH]; simpl; [auto|]. intros [Hall Hinc].
  destruct (f row); simpl; [split|]; auto.
  rewrite Forall_forall in *. intros d Hd. apply Hall.
  unfold pd.index in *. apply in_map_iff in Hd. destruct Hd as (r & <- & Hr).
  apply in_map. apply filter_In in Hr. tauto.
Qed.

(** Two increasing lists with the same elements are equal. *)
Lemma increasing_ext (a b : list Z) :
  increasing a -> increasing b -> (forall d, In d a <-> In d b) -> a = b.
Proof.
  revert b. induction a as [|x a IH]; intros [|y b] Ha Hb Hab.
  - reflexivity.
  - exfalso. apply (proj2 (Hab y)). left. reflexivity.
  - exfalso. apply (proj1 (Hab x)). left. reflexivity.
  - simpl in Ha, Hb. destruct Ha as [Hxa Ha], Hb as [Hyb Hb].
    rewrite Forall_forall in Hxa, Hyb.
    assert (Hxy : x = y).
    { destruct (proj1 (Hab x) (or_introl eq_refl)) as [Heq|Hin]; [congruence|].
      destruct (proj2 (Hab y) (or_introl eq_refl)) as [Heq|Hin']; [congruence|].
      specialize (Hyb x Hin). specialize (Hxa y Hin'). lia. }
    subst y. f_equal. apply IH; auto.
    intros d. split; intros Hd.
    + destruct (proj1 (Hab d) (or_intror Hd)) as [Heq|Hin]; [|exact Hin].
      specialize (Hxa d Hd). lia.
    + destruct (proj2 (Hab d) (or_intror Hd)) as [Heq|Hin]; [|exact Hin].
      specialize (Hyb d Hd). lia.
Qed.

(** X18: aligned calendars.  When the days of both inputs are strictly
    increasing, the two frames returned by [clean_and_match_data] have the
    same days in the same order, hence the same number of rows. *)
Theorem clean_and_match_data_aligned (df1 df2 m1 m2 : pd.DataFrame) :
  increasing (pd.index df1) -> increasing (pd.index df2) ->
  clean_and_match_data df1 df2 = (m1, m2) ->
  pd.index m1 = pd.index m2 /\ length m1 = length m2.
Proof.
  intros H1 H2 H.
  assert (Hidx : pd.index m1 = pd.index m2).
  { apply increasing_ext.
    - rewrite clean_and_match_data_filter in H. injection H as <- _.
      apply increasing_filter, increasing_filter, H1.
    - rewrite clean_and_match_data_filter in H. injection H as _ <-.
      apply increasing_filter, increasing_filter, H2.
    - apply (clean_and_match_data_days df1 df2 m1 m2 H). }
  split; [exact Hidx|].
  apply (f_equal (@length Z)) in Hidx. unfold pd.index in Hidx.
  rewrite !length_map in Hidx. exact Hidx.
Qed.

Lemma clean_and_match_data_aligned_witness :
  exists m1 m2,
    clean_and_match_data example_benchmark_frame example_portfolio_frame = (m1, m2) /\
    pd.index m1 = pd.index m2 /\ length m1 = length m2.
Proof.
  eexists. eexists. split; [vm_compute; reflexivity|].
  apply (clean_and_match_data_aligned example_benchmark_frame example_portfolio_frame).
  - simpl. repeat split; repeat constructor.
  - simpl. repeat split; repeat constructor.
  - vm_compute. reflexivity.
Defined.

Lemma filter_all {A : Type} (f : A -> bool) (l : list A) :
  (forall x, In x l -> f x = true) -> filter f l = l.
Proof.
  induction l as [|x l IH]; simpl; intros H; [reflexivity|].
  rewrite (H x (or_introl eq_refl)). f_equal. apply IH. auto.
Qed.

(** X19: matching is idempotent.  Matching two frames that come out of
    [clean_and_match_data] changes neither. *)
Theorem clean_and_match_data_idempotent (df1 df2 m1 m2 : pd.DataFrame) :
  clean_and_match_data df1 df2 = (m1, m2) ->
  clean_and_match_data m1 m2 = (m1, m2).
Proof.
  intros H. destruct (clean_and_match_data_days df1 df2 m1 m2 H) as (Hdays & Hr1 & Hr2).
  rewrite clean_and_match_data_filter.
  assert (Hd1 : pd.dropna m1 = m1).
  { apply filter_all. intros row Hrow. apply negb_true_iff, (Hr1 row Hrow). }
  assert (Hd2 : pd.dropna m2 = m2).
  { apply filter_all. intros row Hrow. apply negb_true_iff, (Hr2 row Hrow). }
  rewrite Hd1, Hd2. f_equal; apply filter_all; intros row Hrow; apply mem_In.
  - apply Hdays. unfold pd.index. apply in_map, Hrow.
  - apply Hdays. unfold pd.index. apply in_map, Hrow.
Qed.
Lemma clean_and_match_data_idempotent_witness :
  exists m1 m2,
    clean_and_match_data example_benchmark_frame example_portfolio_frame = (m1, m2) /\
    clean_and_match_data m1 m2 = (m1, m2).
Proof.
  eexists. eexists. split; [vm_compute; reflexivity|].
  apply (clean_and_match_data_idempotent example_benchmark_frame example_portfolio_frame).
  vm_compute. reflexivity.
Defined.
